(** * EnsembleClassifier: weighted aggregation over member classifiers

    Shallow embedding of [art/classifiers/ensemble.py].  The class wraps a
    list of already trained classifiers, multiplies every member's output by
    a scalar weight and sums over the member axis.

    - numpy's scalars are kept abstract: the class [Numeric] lists the
      operations the source uses and assumes no algebraic law, so that every
      statement proved for an arbitrary instance also holds for IEEE
      doubles.  The instance over [R] gives ideal arithmetic and is used
      for runs on values that doubles represent exactly; the instance
      over binary64 floats computes what numpy computes.
    - an [ndarray] is a shape together with its row-major buffer.
    - Python exceptions are values of [exn]; a computation that can raise
      has type [result A].
    - member classifiers are objects living in a store; the ensemble holds
      references to them, so two positions of the member list may denote
      the same object. *)

From Stdlib Require Import List ZArith Bool Arith Lia.
From Stdlib Require String.
From Stdlib Require Import Reals Lra.
Import ListNotations.

Set Implicit Arguments.

(** ** Exceptions and the error monad *)

Inductive exn : Type :=
| ValueError
| TypeError
| IndexError
| AttributeError
| AxisError
| NotImplementedError
| MemberError (code : nat).

Inductive result (A : Type) : Type :=
| OK (a : A)
| Err (e : exn).

Arguments OK {A} a.
Arguments Err {A} e.

Definition bind {A B : Type} (m : result A) (k : A -> result B) : result B :=
  match m with
  | OK a => k a
  | Err e => Err e
  end.

Declare Scope result_scope.
Delimit Scope result_scope with result.
Notation "x <- m ;; k" := (bind m (fun x => k))
  (at level 61, m at next level, right associativity) : result_scope.
Open Scope result_scope.

(** A list comprehension [[f i for i in l]] whose body may raise: the
    first exception aborts the whole comprehension. *)
Fixpoint comprehension {A B : Type} (f : A -> result B) (l : list A)
  : result (list B) :=
  match l with
  | [] => OK []
  | a :: l' =>
      b <- f a ;;
      bs <- comprehension f l' ;;
      OK (b :: bs)
  end.

(** [seq[i]] for a non-negative index. *)
Definition getitem {A : Type} (l : list A) (i : nat) : result A :=
  match nth_error l i with
  | Some a => OK a
  | None => Err IndexError
  end.

(** [range(n)] *)
Definition range (n : nat) : list nat := seq 0 n.

(** [==] on tuples and lists, given [==] on their items. *)
Fixpoint list_eqb {A : Type} (eqb : A -> A -> bool) (l1 l2 : list A) : bool :=
  match l1, l2 with
  | [], [] => true
  | a :: l1', b :: l2' => eqb a b && list_eqb eqb l1' l2'
  | _, _ => false
  end.

(** ** Scalars *)

Class Numeric (F : Type) : Type := {
  fofZ : Z -> F;              (* conversion of a Python int *)
  flit : Z -> Z -> F;         (* the float literal of value m * 10^k *)
  fadd : F -> F -> F;
  fsub : F -> F -> F;
  fmul : F -> F -> F;
  fdiv : F -> F -> F;
  fmax : F -> F -> F;         (* np.maximum *)
  fmin : F -> F -> F;         (* np.minimum *)
  flog : F -> F;              (* np.log *)
  feqb : F -> F -> bool       (* == *)
}.

(** ** Arrays *)

Section Arrays.

Context {F : Type} `{Numeric F}.

Record ndarray : Type := mk_ndarray {
  shape : list nat;
  data : list F
}.

Definition size_of (s : list nat) : nat := fold_right Nat.mul 1 s.

(** Every array numpy hands out has as many elements as its shape says. *)
Definition well_formed (a : ndarray) : Prop :=
  length (data a) = size_of (shape a).

Definition shape_eqb (s t : list nat) : bool := list_eqb Nat.eqb s t.

(** [w * a] for a scalar [w]. *)
Definition scale (w : F) (a : ndarray) : ndarray :=
  {| shape := shape a; data := map (fmul w) (data a) |}.

(** [np.array([a0, a1, ...])]: the arrays are stacked along a new first
    axis.  Arrays of different shapes cannot be stacked. *)
Definition np_array (l : list ndarray) : result ndarray :=
  match l with
  | [] => OK {| shape := [0]; data := [] |}
  | a :: _ =>
      if forallb (fun b => shape_eqb (shape b) (shape a)) l
      then OK {| shape := length l :: shape a;
                 data := concat (map data l) |}
      else Err ValueError
  end.

(** The [n] consecutive blocks of [k] elements of a buffer. *)
Fixpoint chunks (k n : nat) (l : list F) : list (list F) :=
  match n with
  | O => []
  | S n' => firstn k l :: chunks k n' (skipn k l)
  end.

Fixpoint zip_with (f : F -> F -> F) (l1 l2 : list F) : list F :=
  match l1, l2 with
  | a :: l1', b :: l2' => f a b :: zip_with f l1' l2'
  | _, _ => []
  end.

(** Reduction with [+] over a list of equally long rows; the accumulator
    starts as the first row. *)
Definition sum_rows (k : nat) (rows : list (list F)) : list F :=
  match rows with
  | [] => repeat (flit 0 0) k
  | r :: rs => fold_left (zip_with fadd) rs r
  end.

(** [np.sum(a, axis=0)] *)
Definition np_sum0 (a : ndarray) : result ndarray :=
  match shape a with
  | [] => Err AxisError
  | n :: s =>
      OK {| shape := s;
            data := sum_rows (size_of s) (chunks (size_of s) n (data a)) |}
  end.

(** [np.clip(a, lo, hi)] *)
Definition np_clip (a : ndarray) (lo hi : F) : ndarray :=
  {| shape := shape a; data := map (fun v => fmin hi (fmax v lo)) (data a) |}.

(** [np.log(a)] *)
Definition np_log (a : ndarray) : ndarray :=
  {| shape := shape a; data := map flog (data a) |}.

(** [np.ones(n)] as a sequence of scalars. *)
Definition np_ones (n : nat) : list F := repeat (flit 1 0) n.

End Arrays.

Arguments ndarray F : clear implicits.

(** ** Python values and objects *)

Inductive PyVal : Type :=
| PyNone
| PyBool (b : bool)
| PyInt (z : Z)
| PyStr (s : String.string).

Definition is_None (v : PyVal) : bool :=
  match v with PyNone => true | _ => false end.

(** [isinstance(v, bool)] *)
Definition isinstance_bool (v : PyVal) : bool :=
  match v with PyBool _ => true | _ => false end.

(** Address of a classifier object in the store. *)
Definition ref : Type := nat.

(** An item of the list handed to the constructor: an instance of
    [Classifier], or some other object. *)
Inductive item : Type :=
| Inst (r : ref)
| NotClassifier (v : PyVal).

(** ** The member interface

    The abstract base class [Classifier], seen from the ensemble: three
    attributes, three queries and the learning-phase switch.  [C] is the
    type of the states a member object can be in. *)

Module Classifier.

Class Interface (F C : Type) : Type := {
  clip_values : C -> F * F;
  nb_classes : C -> Z;
  input_shape : C -> list Z;
  predict : C -> ndarray F -> bool -> result (ndarray F);
  class_gradient : C -> ndarray F -> option Z -> bool -> result (ndarray F);
  loss_gradient : C -> ndarray F -> ndarray F -> result (ndarray F);
  set_learning_phase : C -> bool -> C
}.

End Classifier.

(** ** The store *)

Section Store.

Context {C : Type}.

Definition Heap : Type := ref -> C.

Definition update (h : Heap) (r : ref) (c : C) : Heap :=
  fun k => if Nat.eqb k r then c else h k.

(** Attribute access and method call on an item of the member list. *)
Definition getattr {A : Type} (f : C -> A) (h : Heap) (o : item) : result A :=
  match o with
  | Inst r => OK (f (h r))
  | NotClassifier _ => Err AttributeError
  end.

Definition call {A : Type} (h : Heap) (o : item) (m : C -> result A)
  : result A :=
  match o with
  | Inst r => m (h r)
  | NotClassifier _ => Err AttributeError
  end.

End Store.

Arguments Heap C : clear implicits.

(** ** The ensemble *)

Module EnsembleClassifier.

Section Methods.

Context {F : Type} `{Numeric F} {C : Type} `{Classifier.Interface F C}.

(** The attributes of an instance.  Nothing in this class assigns
    [_learning]: the attribute exists only if the base class initialiser,
    which is outside this file, has set it, and [None] stands for an
    instance without it.  [_learning_phase] is [None] until
    [set_learning_phase] records a value. *)
Record object : Type := mk_object {
  _learning : option PyVal;
  _learning_phase : option bool;
  _nb_classifiers : nat;
  _input_shape : list Z;
  _nb_classes : Z;
  _clip_values : F * F;
  _classifier_weights : list F;
  _classifiers : list item
}.

(** [cv != cv'] on pairs [(min, max)]. *)
Definition clip_values_ne (cv cv' : F * F) : bool :=
  negb (feqb (fst cv) (fst cv') && feqb (snd cv) (snd cv')).

(** The compatibility loop of the constructor.  [first] is
    [classifiers[0]]. *)
Fixpoint check_classifiers (h : Heap C) (clip_values : F * F) (first : item)
  (l : list item) : result unit :=
  match l with
  | [] => OK tt
  | classifier :: l' =>
      match classifier with
      | NotClassifier _ => Err TypeError
      | Inst r =>
          if clip_values_ne clip_values (Classifier.clip_values (h r))
          then Err ValueError
          else
            n0 <- getattr Classifier.nb_classes h first ;;
            if negb (Z.eqb (Classifier.nb_classes (h r)) n0)
            then Err ValueError
            else
              s0 <- getattr Classifier.input_shape h first ;;
              if negb (list_eqb Z.eqb (Classifier.input_shape (h r)) s0)
              then Err ValueError
              else check_classifiers h clip_values first l'
      end
  end.

(** [__init__(self, clip_values, classifiers, classifier_weights=None)].
    [learning] stands for what the base class initialiser stored under
    [_learning], if anything; the arguments that are only forwarded to
    the base class play no role here. *)
Definition __init__ (h : Heap C) (learning : option PyVal)
  (clip_values : F * F)
  (classifiers : option (list item)) (classifier_weights : option (list F))
  : result object :=
  match classifiers with
  | None => Err ValueError
  | Some [] => Err ValueError
  | Some ((first :: _) as cs) =>
      let nb := length cs in
      _ <- check_classifiers h clip_values first cs ;;
      ishape <- getattr Classifier.input_shape h first ;;
      ncls <- getattr Classifier.nb_classes h first ;;
      let weights :=
        match classifier_weights with
        | None => map (fun o => fdiv o (fofZ (Z.of_nat nb))) (np_ones nb)
        | Some ws => ws
        end in
      OK {| _learning := learning;
            _learning_phase := None;
            _nb_classifiers := nb;
            _input_shape := ishape;
            _nb_classes := ncls;
            _clip_values := clip_values;
            _classifier_weights := weights;
            _classifiers := cs |}
  end.

(** [predict(self, x, logits=False, raw=False)] *)
Definition predict (self : object) (h : Heap C) (x : ndarray F)
  (logits raw : bool) : result (ndarray F) :=
  l <- comprehension (fun i =>
         w <- getitem (_classifier_weights self) i ;;
         c <- getitem (_classifiers self) i ;;
         p <- call h c (fun m => Classifier.predict m x (raw && logits)) ;;
         OK (scale w p))
       (range (_nb_classifiers self)) ;;
  preds <- np_array l ;;
  if raw then OK preds
  else
    z <- np_sum0 preds ;;
    if logits then
      let eps := flit 10 (-8) in
      OK (np_log (np_clip z eps (fsub (flit 1 0) eps)))
    else OK z.

(** [fit], [fit_generator], [layer_names], [get_activations] and [save]
    raise before looking at anything. *)
Definition fit (self : object) (x y : ndarray F) (batch_size nb_epochs : Z)
  : result unit := Err NotImplementedError.

Definition fit_generator (self : object) (generator : PyVal) (nb_epochs : Z)
  : result unit := Err NotImplementedError.

Definition layer_names (self : object) : result (list String.string) :=
  Err NotImplementedError.

Definition get_activations (self : object) (x : ndarray F) (layer : PyVal)
  : result (ndarray F) := Err NotImplementedError.

Definition save (self : object) (filename : String.string)
  (path : option String.string) : result unit := Err NotImplementedError.

(** [class_gradient(self, x, label=None, logits=False, raw=False)] *)
Definition class_gradient (self : object) (h : Heap C) (x : ndarray F)
  (label : option Z) (logits raw : bool) : result (ndarray F) :=
  l <- comprehension (fun i =>
         w <- getitem (_classifier_weights self) i ;;
         c <- getitem (_classifiers self) i ;;
         g <- call h c (fun m => Classifier.class_gradient m x label logits) ;;
         OK (scale w g))
       (range (_nb_classifiers self)) ;;
  grads <- np_array l ;;
  if raw then OK grads else np_sum0 grads.

(** [loss_gradient(self, x, y, raw=False)] *)
Definition loss_gradient (self : object) (h : Heap C) (x y : ndarray F)
  (raw : bool) : result (ndarray F) :=
  l <- comprehension (fun i =>
         w <- getitem (_classifier_weights self) i ;;
         c <- getitem (_classifiers self) i ;;
         g <- call h c (fun m => Classifier.loss_gradient m x y) ;;
         OK (scale w g))
       (range (_nb_classifiers self)) ;;
  grads <- np_array l ;;
  if raw then OK grads else np_sum0 grads.

(** The loop of [set_learning_phase]: every member in turn gets the call
    [classifier.set_learning_phase(train)]. *)
Fixpoint propagate (train : bool) (l : list item) (h : Heap C)
  : result (Heap C) :=
  match l with
  | [] => OK h
  | classifier :: l' =>
      match classifier with
      | Inst r =>
          propagate train l'
            (update h r (Classifier.set_learning_phase (h r) train))
      | NotClassifier _ => Err AttributeError
      end
  end.

(** [set_learning_phase(self, train)]; returns the instance and the store
    after the call.  Reading [self._learning] on an instance without that
    attribute raises [AttributeError]. *)
Definition set_learning_phase (self : object) (h : Heap C) (train : PyVal)
  : result (object * Heap C) :=
  match _learning self with
  | None => Err AttributeError
  | Some learning =>
      if negb (is_None learning) && isinstance_bool train then
        match train with
        | PyBool b =>
            h' <- propagate b (_classifiers self) h ;;
            OK ({| _learning := _learning self;
                   _learning_phase := Some b;
                   _nb_classifiers := _nb_classifiers self;
                   _input_shape := _input_shape self;
                   _nb_classes := _nb_classes self;
                   _clip_values := _clip_values self;
                   _classifier_weights := _classifier_weights self;
                   _classifiers := _classifiers self |}, h')
        | _ => OK (self, h)
        end
      else OK (self, h)
  end.

End Methods.

Arguments object F : clear implicits.

End EnsembleClassifier.

(** ** Notions used by the statements *)

Section Statements.

Context {F : Type} `{Numeric F} {C : Type} `{Classifier.Interface F C}.

(** [a[i]]: the [i]-th entry of an array along its first axis. *)
Definition np_getitem0 (a : ndarray F) (i : nat) : result (ndarray F) :=
  match shape a with
  | [] => Err IndexError
  | n :: s =>
      if Nat.ltb i n
      then OK {| shape := s;
                 data := firstn (size_of s) (skipn (i * size_of s) (data a)) |}
      else Err IndexError
  end.

(** Every item of [cs] is a classifier whose query [q] returns a genuine
    array of shape [s] in the store [h]. *)
Definition members_return (q : C -> result (ndarray F)) (h : Heap C)
  (cs : list item) (s : list nat) : Prop :=
  Forall (fun c => exists r p,
            c = Inst r /\ q (h r) = OK p /\ shape p = s /\ well_formed p) cs.

(** [outs] lists, member by member, what the query [q] returns. *)
Definition member_outputs (q : C -> result (ndarray F)) (h : Heap C)
  (cs : list item) (outs : list (ndarray F)) : Prop :=
  Forall2 (fun c p => exists r, c = Inst r /\ q (h r) = OK p) cs outs.

(** The rows that the members contribute to a stack: each member's buffer
    with every entry multiplied by the weight at the member's position. *)
Definition scaled_rows (ws : list F) (outs : list (ndarray F))
  : list (list F) :=
  map (fun wp => map (fmul (fst wp)) (data (snd wp))) (combine ws outs).

(** The sum over the first axis of an [n x k] buffer, written entry by
    entry: entry [(i, j)] sits at position [i * k + j], and entry [j] of
    the sum adds the entries [(0, j)], [(1, j)], ... in this order. *)
Definition pointwise_sum (n k : nat) (d : list F) : list F :=
  map (fun j =>
         match n with
         | 0 => flit 0 0
         | S n' =>
             fold_left (fun acc i => fadd acc (nth (i * k + j) d (flit 0 0)))
               (seq 1 n') (nth j d (flit 0 0))
         end)
    (seq 0 k).

(** Entry [j] of the weighted sum of the member answers: weight times
    entry [j] of the member's answer, added up in member order. *)
Definition weighted_entry (ws : list F) (outs : list (ndarray F)) (j : nat)
  : F :=
  match combine ws outs with
  | [] => flit 0 0
  | (w0, p0) :: rest =>
      fold_left
        (fun acc wp => fadd acc (fmul (fst wp) (nth j (data (snd wp))
                                                  (flit 0 0))))
        rest (fmul w0 (nth j (data p0) (flit 0 0)))
  end.

(** The weighted sum of the member answers, an array of shape [s]. *)
Definition weighted_sum (ws : list F) (outs : list (ndarray F))
  (s : list nat) : ndarray F :=
  {| shape := s; data := map (weighted_entry ws outs) (seq 0 (size_of s)) |}.

(** The comprehension that [predict], [class_gradient] and [loss_gradient]
    share, for a member query [q], followed by the stacking. *)
Definition weighted_stack (self : EnsembleClassifier.object F) (h : Heap C)
  (q : C -> result (ndarray F)) : result (ndarray F) :=
  l <- comprehension (fun i =>
         w <- getitem (EnsembleClassifier._classifier_weights self) i ;;
         c <- getitem (EnsembleClassifier._classifiers self) i ;;
         p <- call h c q ;;
         OK (scale w p))
       (range (EnsembleClassifier._nb_classifiers self)) ;;
  np_array l.

(** How often the object at [r] occurs in a member list. *)
Fixpoint occurrences (r : ref) (l : list item) : nat :=
  match l with
  | [] => 0
  | Inst r' :: l' => (if Nat.eqb r' r then 1 else 0) + occurrences r l'
  | NotClassifier _ :: l' => occurrences r l'
  end.

End Statements.

(** ** Ideal arithmetic *)

#[export] Instance R_numeric : Numeric R := {|
  fofZ := IZR;
  flit := fun m k => (IZR m * powerRZ 10 k)%R;
  fadd := Rplus;
  fsub := Rminus;
  fmul := Rmult;
  fdiv := Rdiv;
  fmax := Rmax;
  fmin := Rmin;
  flog := ln;
  feqb := fun a b => if Req_dec_T a b then true else false
|}.

(** ** A classifier with canned answers

    The kind of member a unit test would use: it answers every query with
    a stored array and remembers the last learning phase it was given.  A
    model without a logits layer is one whose [stub_logits] is an
    exception. *)

Record Stub : Type := mk_stub {
  stub_clip_values : R * R;
  stub_nb_classes : Z;
  stub_input_shape : list Z;
  stub_probabilities : ndarray R;
  stub_logits : result (ndarray R);
  stub_gradient : ndarray R;
  stub_learning_phase : option bool
}.

#[export] Instance Stub_classifier : Classifier.Interface R Stub := {|
  Classifier.clip_values := stub_clip_values;
  Classifier.nb_classes := stub_nb_classes;
  Classifier.input_shape := stub_input_shape;
  Classifier.predict := fun c _ logits =>
    if logits then stub_logits c else OK (stub_probabilities c);
  Classifier.class_gradient := fun c _ _ _ => OK (stub_gradient c);
  Classifier.loss_gradient := fun c _ _ => OK (stub_gradient c);
  Classifier.set_learning_phase := fun c train =>
    {| stub_clip_values := stub_clip_values c;
       stub_nb_classes := stub_nb_classes c;
       stub_input_shape := stub_input_shape c;
       stub_probabilities := stub_probabilities c;
       stub_logits := stub_logits c;
       stub_gradient := stub_gradient c;
       stub_learning_phase := Some train |}
|}.

Module Fixture.

Import EnsembleClassifier.

Definition vec (l : list R) : ndarray R :=
  {| shape := [1; length l]; data := l |}.

(** A two-class model that is undecided: logits [0, 0], probabilities
    [1/2, 1/2]. *)
Definition undecided : Stub :=
  {| stub_clip_values := (0, 1)%R;
     stub_nb_classes := 2;
     stub_input_shape := [4]%Z;
     stub_probabilities := vec [(1/2)%R; (1/2)%R];
     stub_logits := OK (vec [0%R; 0%R]);
     stub_gradient := vec [1%R; (-1)%R];
     stub_learning_phase := None |}.

(** A two-class model that is sure of class 0. *)
Definition confident : Stub :=
  {| stub_clip_values := (0, 1)%R;
     stub_nb_classes := 2;
     stub_input_shape := [4]%Z;
     stub_probabilities := vec [1%R; 0%R];
     stub_logits := OK (vec [9%R; (-9)%R]);
     stub_gradient := vec [0%R; 2%R];
     stub_learning_phase := None |}.

(** A model that can only be asked for probabilities. *)
Definition probabilities_only : Stub :=
  {| stub_clip_values := (0, 1)%R;
     stub_nb_classes := 2;
     stub_input_shape := [4]%Z;
     stub_probabilities := vec [(1/4)%R; (3/4)%R];
     stub_logits := Err (MemberError 7);
     stub_gradient := vec [0%R; 0%R];
     stub_learning_phase := None |}.

(** A model with three classes. *)
Definition three_class : Stub :=
  {| stub_clip_values := (0, 1)%R;
     stub_nb_classes := 3;
     stub_input_shape := [4]%Z;
     stub_probabilities := vec [0%R; 1%R; 0%R];
     stub_logits := OK (vec [0%R; 5%R; 0%R]);
     stub_gradient := vec [0%R; 0%R; 0%R];
     stub_learning_phase := None |}.

(** The store: [undecided] at address 0, [confident] at 1,
    [probabilities_only] at 2 and [three_class] everywhere else. *)
Definition store : Heap Stub :=
  fun r =>
    match r with
    | 0 => undecided
    | 1 => confident
    | 2 => probabilities_only
    | _ => three_class
    end.

Definition x0 : ndarray R := {| shape := [1; 4]; data := [0; 0; 0; 0]%R |}.
Definition y0 : ndarray R := vec [1%R; 0%R].

Definition pair_of_members : option (list item) := Some [Inst 0; Inst 1].

(** What the constructor builds from the two members when no weights are
    given; [learning] is what the base class left under [_learning]. *)
Definition uniform_pair (learning : option PyVal) : object R :=
  {| _learning := learning;
     _learning_phase := None;
     _nb_classifiers := 2;
     _input_shape := [4]%Z;
     _nb_classes := 2;
     _clip_values := (0, 1)%R;
     _classifier_weights := map (fun o => fdiv o (fofZ 2)) (np_ones 2);
     _classifiers := [Inst 0; Inst 1] |}.

(** [undecided] together with the model that has no logits layer. *)
Definition mixed_pair : object R :=
  {| _learning := None;
     _learning_phase := None;
     _nb_classifiers := 2;
     _input_shape := [4]%Z;
     _nb_classes := 2;
     _clip_values := (0, 1)%R;
     _classifier_weights := map (fun o => fdiv o (fofZ 2)) (np_ones 2);
     _classifiers := [Inst 0; Inst 2] |}.

(** The same members with the weights [2] and [3]. *)
Definition weighted_pair (learning : option PyVal) : object R :=
  {| _learning := learning;
     _learning_phase := None;
     _nb_classifiers := 2;
     _input_shape := [4]%Z;
     _nb_classes := 2;
     _clip_values := (0, 1)%R;
     _classifier_weights := [2%R; 3%R];
     _classifiers := [Inst 0; Inst 1] |}.

(** The same members with one weight too many. *)
Definition surplus_pair : object R :=
  {| _learning := None;
     _learning_phase := None;
     _nb_classifiers := 2;
     _input_shape := [4]%Z;
     _nb_classes := 2;
     _clip_values := (0, 1)%R;
     _classifier_weights := [2%R; 3%R; 5%R];
     _classifiers := [Inst 0; Inst 1] |}.

Import String.
Local Open Scope string_scope.

(** An argument that is not a boolean. *)
Definition not_a_bool : PyVal := PyStr "not-a-bool".

End Fixture.

(** ** Further canned members *)

Module Cases.

Import EnsembleClassifier.

(** Two members, the second without a logits layer, and a single
    weight. *)
Definition short_mixed_pair : object R :=
  {| _learning := None;
     _learning_phase := None;
     _nb_classifiers := 2;
     _input_shape := [4]%Z;
     _nb_classes := 2;
     _clip_values := (0, 1)%R;
     _classifier_weights := [2%R];
     _classifiers := [Inst 0; Inst 2] |}.

(** A classifier that answers every query with the same array, or raises
    the same exception on every query. *)
Record Brittle : Type := mk_brittle {
  brittle_answer : ndarray R;
  brittle_fault : option exn
}.

Definition brittle_query (c : Brittle) : result (ndarray R) :=
  match brittle_fault c with
  | Some e => Err e
  | None => OK (brittle_answer c)
  end.

#[global] Instance Brittle_classifier : Classifier.Interface R Brittle := {|
  Classifier.clip_values := fun _ => (0, 1)%R;
  Classifier.nb_classes := fun _ => 2%Z;
  Classifier.input_shape := fun _ => [4]%Z;
  Classifier.predict := fun c _ _ => brittle_query c;
  Classifier.class_gradient := fun c _ _ _ => brittle_query c;
  Classifier.loss_gradient := fun c _ _ => brittle_query c;
  Classifier.set_learning_phase := fun c _ => c
|}.

(** A sound member at address 0, broken ones everywhere else. *)
Definition brittle_store : Heap Brittle :=
  fun r =>
    match r with
    | 0 => {| brittle_answer := Fixture.vec [1%R; 0%R];
              brittle_fault := None |}
    | _ => {| brittle_answer := Fixture.vec [0%R; 1%R];
              brittle_fault := Some (MemberError 3) |}
    end.

Definition brittle_pair : object R :=
  {| _learning := None;
     _learning_phase := None;
     _nb_classifiers := 2;
     _input_shape := [4]%Z;
     _nb_classes := 2;
     _clip_values := (0, 1)%R;
     _classifier_weights := [1%R; 1%R];
     _classifiers := [Inst 0; Inst 1] |}.

(** Two members and a single weight. *)
Definition short_pair : object R :=
  {| _learning := None;
     _learning_phase := None;
     _nb_classifiers := 2;
     _input_shape := [4]%Z;
     _nb_classes := 2;
     _clip_values := (0, 1)%R;
     _classifier_weights := [2%R];
     _classifiers := [Inst 0; Inst 1] |}.

(** A single member with the default weight. *)
Definition solo : object R :=
  {| _learning := None;
     _learning_phase := None;
     _nb_classifiers := 1;
     _input_shape := [4]%Z;
     _nb_classes := 2;
     _clip_values := (0, 1)%R;
     _classifier_weights := map (fun o => fdiv o (fofZ 1)) (np_ones 1);
     _classifiers := [Inst 1] |}.

End Cases.

(** ** Binary64 arithmetic

    numpy's [float64] is the IEEE 754 binary64 format with rounding to
    nearest even, which is what the kernel's primitive floats compute.
    [np.log] comes from the C library and is left as a parameter. *)

From Stdlib Require Floats.

Module Float64.

Import EnsembleClassifier.

(** Conversion of a Python [int] below [2^63] in absolute value. *)
Definition of_int (z : Z) : PrimFloat.float :=
  match z with
  | Z0 => PrimFloat.of_uint63 (Uint63.of_Z 0)
  | Zpos _ => PrimFloat.of_uint63 (Uint63.of_Z z)
  | Zneg p => PrimFloat.opp (PrimFloat.of_uint63 (Uint63.of_Z (Zpos p)))
  end.

(** The literal of value [m * 10^k].  For a mantissa and a power of ten
    that binary64 holds exactly, as in every literal of the source, one
    correctly rounded division gives the double the Python parser
    gives. *)
Definition literal (m k : Z) : PrimFloat.float :=
  match k with
  | Zneg p => PrimFloat.div (of_int m) (of_int (Z.pow 10 (Zpos p)))
  | _ => of_int (m * Z.pow 10 k)
  end.

(** [np.maximum] and [np.minimum] hand on a NaN operand. *)
Definition maximum (a b : PrimFloat.float) : PrimFloat.float :=
  if PrimFloat.is_nan a then a
  else if PrimFloat.is_nan b then b
  else if PrimFloat.ltb a b then b else a.

Definition minimum (a b : PrimFloat.float) : PrimFloat.float :=
  if PrimFloat.is_nan a then a
  else if PrimFloat.is_nan b then b
  else if PrimFloat.ltb b a then b else a.

Definition numeric (log : PrimFloat.float -> PrimFloat.float)
  : Numeric PrimFloat.float := {|
  fofZ := of_int;
  flit := literal;
  fadd := PrimFloat.add;
  fsub := PrimFloat.sub;
  fmul := PrimFloat.mul;
  fdiv := PrimFloat.div;
  fmax := maximum;
  fmin := minimum;
  flog := log;
  feqb := PrimFloat.eqb
|}.

(** A classifier with one class that answers every query with the same
    array. *)
Record Constant : Type := mk_constant {
  constant_answer : ndarray PrimFloat.float
}.

#[global] Instance Constant_classifier
  : Classifier.Interface PrimFloat.float Constant := {|
  Classifier.clip_values := fun _ => (of_int 0, of_int 1);
  Classifier.nb_classes := fun _ => 1%Z;
  Classifier.input_shape := fun _ => [1]%Z;
  Classifier.predict := fun c _ _ => OK (constant_answer c);
  Classifier.class_gradient := fun c _ _ _ => OK (constant_answer c);
  Classifier.loss_gradient := fun c _ _ => OK (constant_answer c);
  Classifier.set_learning_phase := fun c _ => c
|}.

(** The prediction [[1.0]] for a batch of one input. *)
Definition sure : ndarray PrimFloat.float :=
  {| shape := [1; 1]; data := [of_int 1] |}.

(** A store in which every object predicts [sure]. *)
Definition store : Heap Constant := fun _ => {| constant_answer := sure |}.

Definition x0 : ndarray PrimFloat.float :=
  {| shape := [1; 1]; data := [of_int 0] |}.


End Float64.

(** * Properties *)

Unset Implicit Arguments.

(** ** The error monad and comprehensions *)

Section Comprehension.

Variables A B : Type.

Lemma bind_assoc (X Y Z : Type) (m : result X) (f : X -> result Y)
  (g : Y -> result Z) :
  bind (bind m f) g = bind m (fun x => bind (f x) g).
Proof. destruct m; reflexivity. Qed.

Lemma bind_OK_inv (X Y : Type) (m : result X) (f : X -> result Y) (y : Y) :
  bind m f = OK y -> exists x, m = OK x /\ f x = OK y.
Proof. destruct m as [x|e]; simpl; [eauto | discriminate]. Qed.

Lemma comprehension_length (f : A -> result B) (l : list A) (bs : list B) :
  comprehension f l = OK bs -> length bs = length l.
Proof.
  revert bs; induction l as [|a l IH]; simpl; intros bs Hc.
  - now inversion Hc.
  - destruct (f a) as [b|]; simpl in Hc; [|discriminate].
    destruct (comprehension f l) as [bs'|]; simpl in Hc; [|discriminate].
    inversion Hc; subst; simpl; f_equal; now apply IH.
Qed.

Lemma comprehension_ext (f g : A -> result B) (l : list A) :
  (forall a, In a l -> f a = g a) -> comprehension f l = comprehension g l.
Proof.
  induction l as [|a l IH]; simpl; intros Hfg; [reflexivity|].
  rewrite (Hfg a) by now left.
  rewrite IH by (intros; apply Hfg; now right).
  reflexivity.
Qed.

Lemma comprehension_Forall2 (f : A -> result B) (l : list A) (bs : list B) :
  comprehension f l = OK bs <-> Forall2 (fun a b => f a = OK b) l bs.
Proof.
  revert bs; induction l as [|a l IH]; simpl; intros bs; split; intros Hc.
  - inversion Hc; constructor.
  - inversion Hc; reflexivity.
  - destruct (f a) as [b|] eqn:Ha; simpl in Hc; [|discriminate].
    destruct (comprehension f l) as [bs'|] eqn:Hl; simpl in Hc; [|discriminate].
    inversion Hc; subst; constructor; [assumption | now apply IH].
  - inversion Hc as [|a' b l' bs' Ha Hl]; subst.
    rewrite Ha; simpl. apply IH in Hl. rewrite Hl. reflexivity.
Qed.

(** A comprehension fails as soon as its body fails at one index. *)
Lemma comprehension_fails (f : A -> result B) (l : list A) (a : A) (e : exn) :
  In a l -> f a = Err e -> exists e', comprehension f l = Err e'.
Proof.
  induction l as [|a' l IH]; simpl; intros Hin Ha; [contradiction|].
  destruct Hin as [->|Hin].
  - rewrite Ha; simpl; eauto.
  - destruct (f a'); simpl; [|eauto].
    destruct (IH Hin Ha) as [e' ->]; simpl; eauto.
Qed.

End Comprehension.

(** Indexing two sequences by position over [range n] amounts to walking
    them side by side. *)
Lemma comprehension_range_combine (W I B : Type) (g : W -> I -> result B)
  (ws : list W) (cs : list I) (n a : nat) :
  a + n <= length ws -> a + n <= length cs ->
  comprehension (fun i => w <- getitem ws i ;; c <- getitem cs i ;; g w c)
    (seq a n)
  = comprehension (fun wc => g (fst wc) (snd wc))
      (combine (firstn n (skipn a ws)) (firstn n (skipn a cs))).
Proof.
  revert a; induction n as [|n IH]; intros a Hw Hc; [reflexivity|].
  simpl seq.
  destruct (skipn a ws) as [|w ws'] eqn:Ews.
  { apply (f_equal (@length W)) in Ews. rewrite length_skipn in Ews.
    simpl in Ews; lia. }
  destruct (skipn a cs) as [|c cs'] eqn:Ecs.
  { apply (f_equal (@length I)) in Ecs. rewrite length_skipn in Ecs.
    simpl in Ecs; lia. }
  assert (Hw' : nth_error ws a = Some w).
  { rewrite <- (firstn_skipn a ws) at 1.
    rewrite nth_error_app2 by (rewrite length_firstn; lia).
    rewrite length_firstn, Ews.
    replace (a - Nat.min a (length ws)) with 0 by lia. reflexivity. }
  assert (Hc' : nth_error cs a = Some c).
  { rewrite <- (firstn_skipn a cs) at 1.
    rewrite nth_error_app2 by (rewrite length_firstn; lia).
    rewrite length_firstn, Ecs.
    replace (a - Nat.min a (length cs)) with 0 by lia. reflexivity. }
  simpl. unfold getitem at 1 2. rewrite Hw', Hc'. simpl.
  rewrite IH by lia.
  assert (Sw : skipn (S a) ws = ws').
  { replace (S a) with (1 + a) by lia.
    rewrite <- skipn_skipn, Ews. reflexivity. }
  assert (Sc : skipn (S a) cs = cs').
  { replace (S a) with (1 + a) by lia.
    rewrite <- skipn_skipn, Ecs. reflexivity. }
  rewrite Sw, Sc. reflexivity.
Qed.

(** ** Arrays *)

Section ArrayFacts.

Context {F : Type} `{Numeric F}.

Lemma list_eqb_nat_eq (s t : list nat) : list_eqb Nat.eqb s t = true <-> s = t.
Proof.
  revert t; induction s as [|a s IH]; destruct t as [|b t]; simpl;
    try (split; [discriminate | congruence]); [tauto|].
  rewrite andb_true_iff, Nat.eqb_eq, IH. split.
  - intros [-> ->]; reflexivity.
  - intros E; inversion E; auto.
Qed.

Lemma list_eqb_Z_eq (s t : list Z) : list_eqb Z.eqb s t = true <-> s = t.
Proof.
  revert t; induction s as [|a s IH]; destruct t as [|b t]; simpl;
    try (split; [discriminate | congruence]); [tauto|].
  rewrite andb_true_iff, Z.eqb_eq, IH. split.
  - intros [-> ->]; reflexivity.
  - intros E; inversion E; auto.
Qed.

Lemma chunks_concat (k : nat) (rows : list (list F)) :
  Forall (fun r => length r = k) rows ->
  chunks k (length rows) (concat rows) = rows.
Proof.
  induction 1 as [|r rows Hr _ IH]; simpl; [reflexivity|].
  rewrite firstn_app, skipn_app, Hr, Nat.sub_diag.
  rewrite firstn_all2, skipn_all2 by lia.
  simpl. rewrite app_nil_r, IH. reflexivity.
Qed.

Lemma np_array_same_shape (l : list (ndarray F)) (s : list nat) :
  l <> [] -> Forall (fun b => shape b = s) l ->
  np_array l = OK {| shape := length l :: s; data := concat (map data l) |}.
Proof.
  intros Hne Hall. destruct l as [|a l']; [congruence|].
  unfold np_array.
  assert (Ha : shape a = s) by (inversion Hall; assumption).
  replace (forallb (fun b => shape_eqb (shape b) (shape a)) (a :: l'))
    with true; [rewrite Ha; reflexivity|].
  symmetry; apply forallb_forall; intros b Hb.
  apply list_eqb_nat_eq. rewrite Forall_forall in Hall.
  rewrite Ha; now apply Hall.
Qed.

Lemma np_array_OK_inv (l : list (ndarray F)) (a : ndarray F) :
  np_array l = OK a ->
  data a = concat (map data l) /\
  exists s, shape a = length l :: s /\ Forall (fun b => shape b = s) l.
Proof.
  destruct l as [|b l']; unfold np_array.
  - intros E; inversion E; subst; simpl. split; [reflexivity|].
    exists []; split; [reflexivity | constructor].
  - destruct (forallb _ _) eqn:Hall; [|discriminate].
    intros E; inversion E; subst; simpl. split; [reflexivity|].
    exists (shape b); split; [reflexivity|].
    apply Forall_forall; intros c Hc.
    rewrite forallb_forall in Hall. now apply list_eqb_nat_eq, Hall.
Qed.

(** Summing a stack over its first axis always succeeds. *)
Lemma np_sum0_stack (l : list (ndarray F)) (a : ndarray F) :
  np_array l = OK a -> exists t, np_sum0 a = OK t.
Proof.
  intros Ha. destruct (np_array_OK_inv _ _ Ha) as [_ (s & Hs & _)].
  unfold np_sum0. rewrite Hs. eauto.
Qed.

(** The sum of a stack of genuine arrays is the row-wise sum of their
    buffers. *)
Lemma np_sum0_np_array (l : list (ndarray F)) (s : list nat) :
  l <> [] -> Forall (fun b => shape b = s /\ well_formed b) l ->
  (a <- np_array l ;; np_sum0 a)
  = OK {| shape := s; data := sum_rows (size_of s) (map data l) |}.
Proof.
  intros Hne Hall.
  rewrite (np_array_same_shape l s Hne)
    by (eapply Forall_impl; [|exact Hall]; simpl; tauto).
  simpl. unfold np_sum0; simpl.
  rewrite <- (length_map data l), chunks_concat; [reflexivity|].
  apply Forall_map. eapply Forall_impl; [|exact Hall].
  intros b [Hs Hw]. unfold well_formed in Hw. now rewrite Hw, Hs.
Qed.

Lemma scale_shape (w : F) (a : ndarray F) : shape (scale w a) = shape a.
Proof. reflexivity. Qed.

Lemma scale_well_formed (w : F) (a : ndarray F) :
  well_formed a -> well_formed (scale w a).
Proof. unfold well_formed, scale; simpl. now rewrite length_map. Qed.

End ArrayFacts.

(** ** The constructor and the shared comprehension *)

Section EnsembleFacts.

Import EnsembleClassifier.

Context {F : Type} `{Numeric F} {C : Type} `{Classifier.Interface F C}.

Implicit Types (self : object F) (h : Heap C) (q : C -> result (ndarray F)).

(** What a successful construction leaves behind. *)
Lemma init_OK_inv h learning cv cs ws self :
  __init__ h learning cv cs ws = OK self ->
  exists first rest ishape ncls,
    cs = Some (first :: rest) /\
    check_classifiers h cv first (first :: rest) = OK tt /\
    getattr Classifier.input_shape h first = OK ishape /\
    getattr Classifier.nb_classes h first = OK ncls /\
    self = {| _learning := learning;
              _learning_phase := None;
              _nb_classifiers := length (first :: rest);
              _input_shape := ishape;
              _nb_classes := ncls;
              _clip_values := cv;
              _classifier_weights :=
                match ws with
                | None =>
                    map (fun o => fdiv o
                                    (fofZ (Z.of_nat (length (first :: rest)))))
                      (np_ones (length (first :: rest)))
                | Some w => w
                end;
              _classifiers := first :: rest |}.
Proof.
  unfold __init__. destruct cs as [[|first rest]|]; try discriminate.
  destruct (check_classifiers h cv first (first :: rest)) as [[]|] eqn:Hc;
    simpl; [|discriminate].
  destruct (getattr Classifier.input_shape h first) as [ishape|] eqn:Hi;
    simpl; [|discriminate].
  destruct (getattr Classifier.nb_classes h first) as [ncls|] eqn:Hn;
    simpl; [|discriminate].
  intros E; inversion E; subst.
  exists first, rest, ishape, ncls. repeat split; assumption.
Qed.

(** Every item that passes the compatibility loop is a classifier that
    agrees with the configured range and with [classifiers[0]]. *)
Lemma check_classifiers_OK h cv first l :
  check_classifiers h cv first l = OK tt ->
  Forall (fun c => exists r,
            c = Inst r /\
            clip_values_ne cv (Classifier.clip_values (h r)) = false /\
            getattr Classifier.nb_classes h first
              = OK (Classifier.nb_classes (h r)) /\
            getattr Classifier.input_shape h first
              = OK (Classifier.input_shape (h r))) l.
Proof.
  induction l as [|c l IH]; simpl; intros Hc; [constructor|].
  destruct c as [r|v]; [|discriminate].
  destruct (clip_values_ne cv (Classifier.clip_values (h r))) eqn:Hcv;
    [discriminate|].
  destruct (getattr Classifier.nb_classes h first) as [n0|] eqn:Hn;
    simpl in Hc; [|discriminate].
  destruct (Z.eqb (Classifier.nb_classes (h r)) n0) eqn:En;
    simpl in Hc; [|discriminate].
  destruct (getattr Classifier.input_shape h first) as [s0|] eqn:Hs;
    simpl in Hc; [|discriminate].
  destruct (list_eqb Z.eqb (Classifier.input_shape (h r)) s0) eqn:Es;
    simpl in Hc; [|discriminate].
  constructor; [|now apply IH].
  exists r. apply Z.eqb_eq in En. apply list_eqb_Z_eq in Es.
  subst; auto.
Qed.

Lemma init_members h learning cv cs ws self :
  __init__ h learning cv cs ws = OK self ->
  cs = Some (_classifiers self) /\
  _classifiers self <> [] /\
  _nb_classifiers self = length (_classifiers self) /\
  Forall (fun c => exists r, c = Inst r) (_classifiers self).
Proof.
  intros Hi. destruct (init_OK_inv _ _ _ _ _ _ Hi)
    as (first & rest & ishape & ncls & -> & Hc & _ & _ & ->); simpl.
  repeat split; try discriminate.
  eapply Forall_impl; [|exact (check_classifiers_OK _ _ _ _ Hc)].
  intros c (r & -> & _); eauto.
Qed.

(** The three queries in terms of the shared comprehension. *)
Lemma predict_unfold self h x logits raw :
  predict self h x logits raw =
  (preds <- weighted_stack self h
              (fun m => Classifier.predict m x (raw && logits)) ;;
   if raw then OK preds
   else
     z <- np_sum0 preds ;;
     if logits then
       OK (np_log (np_clip z (flit 10 (-8))
                     (fsub (flit 1 0) (flit 10 (-8)))))
     else OK z).
Proof. unfold predict, weighted_stack. now rewrite bind_assoc. Qed.

Lemma class_gradient_unfold self h x label logits raw :
  class_gradient self h x label logits raw =
  (grads <- weighted_stack self h
              (fun m => Classifier.class_gradient m x label logits) ;;
   if raw then OK grads else np_sum0 grads).
Proof. unfold class_gradient, weighted_stack. now rewrite bind_assoc. Qed.

Lemma loss_gradient_unfold self h x y raw :
  loss_gradient self h x y raw =
  (grads <- weighted_stack self h
              (fun m => Classifier.loss_gradient m x y) ;;
   if raw then OK grads else np_sum0 grads).
Proof. unfold loss_gradient, weighted_stack. now rewrite bind_assoc. Qed.

(** The first axis of the stack indexes the members; its sum exists. *)
Lemma weighted_stack_shape self h q a :
  weighted_stack self h q = OK a ->
  (exists s, shape a = _nb_classifiers self :: s) /\
  exists t, np_sum0 a = OK t.
Proof.
  unfold weighted_stack. intros Hs.
  apply bind_OK_inv in Hs. destruct Hs as (l & Hl & Ha).
  apply comprehension_length in Hl. unfold range in Hl.
  rewrite length_seq in Hl.
  split; [|eapply np_sum0_stack; eassumption].
  destruct (np_array_OK_inv _ _ Ha) as [_ (s & Hs & _)].
  exists s. now rewrite Hs, Hl.
Qed.

Lemma combine_rows h q cs outs (ws : list F) :
  member_outputs q h cs outs ->
  length ws = length cs ->
  comprehension (fun wc => p <- call h (snd wc) q ;; OK (scale (fst wc) p))
    (combine ws cs)
  = OK (map (fun wp => scale (fst wp) (snd wp)) (combine ws outs)).
Proof.
  unfold member_outputs. intros Hout. revert ws.
  induction Hout as [|c p cs outs (r & -> & Hq) _ IH];
    intros [|w ws] Hlen; simpl in *; try discriminate; [reflexivity|].
  rewrite Hq; simpl. rewrite IH by congruence. reflexivity.
Qed.

(** With enough weights, the rows of the stack are the member outputs,
    each scaled by the weight at its position. *)
Lemma weighted_rows self h q outs :
  _nb_classifiers self = length (_classifiers self) ->
  _nb_classifiers self <= length (_classifier_weights self) ->
  member_outputs q h (_classifiers self) outs ->
  comprehension (fun i =>
      w <- getitem (_classifier_weights self) i ;;
      c <- getitem (_classifiers self) i ;;
      p <- call h c q ;;
      OK (scale w p))
    (range (_nb_classifiers self))
  = OK (map (fun wp => scale (fst wp) (snd wp))
          (combine (firstn (_nb_classifiers self) (_classifier_weights self))
             outs)).
Proof.
  intros Hn Hw Hout. unfold range.
  rewrite (comprehension_range_combine _ _ _
             (fun w c => p <- call h c q ;; OK (scale w p)))
    by (simpl; lia).
  simpl skipn. rewrite Hn at 2. rewrite firstn_all.
  apply combine_rows; [assumption|].
  rewrite length_firstn; lia.
Qed.

Lemma members_return_outputs q h cs s :
  members_return q h cs s ->
  exists outs, member_outputs q h cs outs /\
               Forall (fun p => shape p = s /\ well_formed p) outs.
Proof.
  unfold members_return, member_outputs.
  induction 1 as [|c cs (r & p & -> & Hq & Hs & Hw) _ (outs & IH1 & IH2)].
  - exists []; split; constructor.
  - exists (p :: outs); split; constructor; eauto.
Qed.

Lemma member_outputs_length q h cs outs :
  member_outputs q h cs outs -> length outs = length cs.
Proof. intros Ho; symmetry; exact (Forall2_length Ho). Qed.

(** The stack exists and has the expected rows whenever every member
    answers with a genuine array of one and the same shape. *)
Lemma weighted_stack_returns self h q outs s :
  _classifiers self <> [] ->
  _nb_classifiers self = length (_classifiers self) ->
  _nb_classifiers self <= length (_classifier_weights self) ->
  member_outputs q h (_classifiers self) outs ->
  Forall (fun p => shape p = s /\ well_formed p) outs ->
  let rows := map (fun wp => scale (fst wp) (snd wp))
                (combine (firstn (_nb_classifiers self)
                            (_classifier_weights self)) outs) in
  weighted_stack self h q
    = OK {| shape := _nb_classifiers self :: s;
            data := concat (map data rows) |} /\
  (a <- weighted_stack self h q ;; np_sum0 a)
    = OK {| shape := s; data := sum_rows (size_of s) (map data rows) |}.
Proof.
  intros Hne Hn Hw Hout Hshape rows.
  pose proof (member_outputs_length _ _ _ _ Hout) as Hlo.
  assert (Hlr : length rows = _nb_classifiers self).
  { unfold rows. rewrite length_map, length_combine, length_firstn. lia. }
  assert (Hrs : Forall (fun b => shape b = s /\ well_formed b) rows).
  { unfold rows. apply Forall_forall. intros b Hb.
    apply in_map_iff in Hb. destruct Hb as ([w p] & <- & Hin).
    apply in_combine_r in Hin. rewrite Forall_forall in Hshape.
    destruct (Hshape p Hin) as [Hs Hwf]. simpl.
    split; [assumption | now apply scale_well_formed]. }
  assert (Hrne : rows <> []).
  { intros E. rewrite E in Hlr. simpl in Hlr.
    destruct (_classifiers self); [congruence | simpl in Hn; lia]. }
  unfold weighted_stack. rewrite (weighted_rows _ _ _ _ Hn Hw Hout).
  fold rows. simpl. split.
  - rewrite (np_array_same_shape rows s Hrne)
      by (eapply Forall_impl; [|exact Hrs]; simpl; tauto).
    now rewrite Hlr.
  - exact (np_sum0_np_array rows s Hrne Hrs).
Qed.

End EnsembleFacts.

(** ** Runs on the canned classifiers *)

Section FixtureFacts.

Import EnsembleClassifier.

Ltac decide_reals :=
  repeat match goal with
         | |- context [Req_dec_T ?a ?b] =>
             destruct (Req_dec_T a b); [|exfalso; lra]
         end.

Lemma init_uniform_pair (learning : option PyVal) :
  __init__ Fixture.store learning (0, 1)%R Fixture.pair_of_members None
  = OK (Fixture.uniform_pair learning).
Proof.
  unfold __init__, Fixture.pair_of_members, Fixture.uniform_pair.
  simpl. unfold clip_values_ne. simpl. decide_reals. reflexivity.
Qed.

Lemma init_weighted_pair (learning : option PyVal) :
  __init__ Fixture.store learning (0, 1)%R Fixture.pair_of_members
    (Some [2%R; 3%R])
  = OK (Fixture.weighted_pair learning).
Proof.
  unfold __init__, Fixture.pair_of_members, Fixture.weighted_pair.
  simpl. unfold clip_values_ne. simpl. decide_reals. reflexivity.
Qed.

(** The first two canned members answer every query with a genuine
    [1 x 2] array. *)
Ltac stubs_answer :=
  unfold members_return; repeat constructor;
  eexists; eexists; (split; [reflexivity|]);
  (split; [reflexivity|]); split; reflexivity.

Lemma stubs_predict (x : ndarray R) (flag : bool) :
  members_return (fun m => Classifier.predict m x flag) Fixture.store
    [Inst 0; Inst 1] [1; 2].
Proof. destruct flag; stubs_answer. Qed.

Lemma stubs_class_gradient (x : ndarray R) (label : option Z) (flag : bool) :
  members_return (fun m => Classifier.class_gradient m x label flag)
    Fixture.store [Inst 0; Inst 1] [1; 2].
Proof. stubs_answer. Qed.

Lemma stubs_loss_gradient (x y : ndarray R) :
  members_return (fun m => Classifier.loss_gradient m x y)
    Fixture.store [Inst 0; Inst 1] [1; 2].
Proof. stubs_answer. Qed.

End FixtureFacts.

(** ** Sums over the member axis, entry by entry *)

Section Pointwise.

Context {F : Type} `{Numeric F}.

Lemma length_zip_with (f : F -> F -> F) (a b : list F) :
  length (zip_with f a b) = Nat.min (length a) (length b).
Proof.
  revert b; induction a as [|u a IH]; intros [|v b]; simpl; auto.
Qed.

Lemma nth_zip_with (f : F -> F -> F) (a b : list F) (j : nat) (z : F) :
  j < length a -> j < length b ->
  nth j (zip_with f a b) z = f (nth j a z) (nth j b z).
Proof.
  revert b j; induction a as [|u a IH]; intros [|v b] [|j]; simpl;
    intros Ha Hb; try lia; [reflexivity|].
  apply IH; lia.
Qed.

Lemma map_nth_seq (r : list F) (z : F) :
  map (fun j => nth j r z) (seq 0 (length r)) = r.
Proof.
  induction r as [|u r IH]; simpl; [reflexivity|].
  f_equal. rewrite <- seq_shift, map_map. exact IH.
Qed.

Lemma nth_map_lt (f : F -> F) (l : list F) (j : nat) (z : F) :
  j < length l -> nth j (map f l) z = f (nth j l z).
Proof.
  intros Hj. rewrite (nth_indep _ z (f z)) by (rewrite length_map; lia).
  apply map_nth.
Qed.

(** Adding rows one after the other adds their entries one after the
    other. *)
Lemma fold_rows_pointwise (k : nat) (rs : list (list F)) (r : list F)
  (z : F) :
  length r = k -> Forall (fun r' => length r' = k) rs ->
  fold_left (zip_with fadd) rs r
  = map (fun j => fold_left (fun acc r' => fadd acc (nth j r' z)) rs
                    (nth j r z))
      (seq 0 k).
Proof.
  intros Hr Hrs. revert r Hr.
  induction Hrs as [|r1 rs Hr1 _ IH]; intros r Hr; simpl.
  - subst k. symmetry. apply map_nth_seq.
  - rewrite IH by (rewrite length_zip_with; lia).
    apply map_ext_in. intros j Hj. apply in_seq in Hj.
    rewrite nth_zip_with by lia. reflexivity.
Qed.

(** Entry [(i, j)] of a buffer made of rows of [k] entries. *)
Lemma nth_concat_uniform (k : nat) (rows : list (list F)) (i j : nat)
  (z : F) :
  Forall (fun r => length r = k) rows -> i < length rows -> j < k ->
  nth (i * k + j) (concat rows) z = nth j (nth i rows []) z.
Proof.
  intros Hall. revert i.
  induction Hall as [|r rows Hr _ IH]; intros i Hi Hj; simpl in *; [lia|].
  destruct i as [|i]; simpl.
  - apply app_nth1. lia.
  - rewrite app_nth2 by lia.
    replace (k + i * k + j - length r) with (i * k + j) by lia.
    apply IH; lia.
Qed.

Lemma fold_index_rows (g : nat -> F) (f : list F -> F)
  (rs : list (list F)) (a : nat) (x : F) :
  (forall i, i < length rs -> g (a + i) = f (nth i rs [])) ->
  fold_left (fun acc i => fadd acc (g i)) (seq a (length rs)) x
  = fold_left (fun acc r => fadd acc (f r)) rs x.
Proof.
  revert a x. induction rs as [|r rs IH]; intros a x Hg; simpl;
    [reflexivity|].
  pose proof (Hg 0 ltac:(simpl; lia)) as H0.
  rewrite Nat.add_0_r in H0. simpl in H0. rewrite H0.
  apply IH. intros i Hi.
  replace (S a + i) with (a + S i) by lia.
  apply (Hg (S i)). simpl. lia.
Qed.

(** [np.sum(axis=0)] on a stack of equally long rows is the sum taken
    entry by entry. *)
Lemma pointwise_sum_concat (k : nat) (r : list F) (rs : list (list F)) :
  Forall (fun r' => length r' = k) (r :: rs) ->
  pointwise_sum (length (r :: rs)) k (concat (r :: rs))
  = sum_rows k (r :: rs).
Proof.
  intros Hall. unfold pointwise_sum, sum_rows. cbn [length].
  rewrite (fold_rows_pointwise k rs r (flit 0 0)
             (Forall_inv Hall) (Forall_inv_tail Hall)).
  apply map_ext_in. intros j Hj. apply in_seq in Hj.
  pose proof (nth_concat_uniform k (r :: rs) 0 j (flit 0 0) Hall
                ltac:(simpl; lia) ltac:(lia)) as E0.
  cbn [Nat.mul Nat.add nth] in E0. rewrite E0.
  apply fold_index_rows. intros i Hi.
  rewrite (nth_concat_uniform k (r :: rs) (1 + i) j (flit 0 0) Hall)
    by (simpl; lia).
  reflexivity.
Qed.

Lemma fold_scaled_entries (j : nat) (rest : list (F * ndarray F)) (x : F) :
  Forall (fun wp => j < length (data (snd wp))) rest ->
  fold_left (fun acc r' => fadd acc (nth j r' (flit 0 0)))
    (map (fun wp => map (fmul (fst wp)) (data (snd wp))) rest) x
  = fold_left
      (fun acc wp => fadd acc (fmul (fst wp)
                                 (nth j (data (snd wp)) (flit 0 0))))
      rest x.
Proof.
  intros Hall. revert x.
  induction Hall as [|wp rest Hwp _ IH]; intros x; simpl; [reflexivity|].
  rewrite nth_map_lt by assumption. apply IH.
Qed.

(** The sum of the scaled member rows is, entry by entry, the weighted
    sum of the member answers. *)
Lemma sum_scaled_rows (ws : list F) (outs : list (ndarray F)) (k : nat) :
  Forall (fun p => length (data p) = k) outs ->
  sum_rows k (scaled_rows ws outs) = map (weighted_entry ws outs) (seq 0 k).
Proof.
  intros Hall. unfold scaled_rows, weighted_entry.
  assert (Hc : Forall (fun wp => length (data (snd wp)) = k)
                 (combine ws outs)).
  { apply Forall_forall. intros [w p] Hin. apply in_combine_r in Hin.
    rewrite Forall_forall in Hall. now apply Hall. }
  destruct (combine ws outs) as [|[w0 p0] rest]; simpl.
  - clear. generalize 0. induction k as [|k IH]; intros a; simpl;
      [reflexivity|]. f_equal. apply IH.
  - pose proof (Forall_inv Hc) as Hp0. pose proof (Forall_inv_tail Hc) as Hrest.
    cbn [snd] in Hp0.
    rewrite (fold_rows_pointwise k _ _ (flit 0 0)).
    + apply map_ext_in. intros j Hj. apply in_seq in Hj.
      rewrite nth_map_lt by lia.
      apply fold_scaled_entries.
      eapply Forall_impl; [|exact Hrest]. simpl. intros wp Hwp. lia.
    + now rewrite length_map.
    + apply Forall_map. eapply Forall_impl; [|exact Hrest].
      intros wp Hwp. now rewrite length_map.
Qed.

End Pointwise.

(** ** Raw outputs and their sum *)

Section RawAndSum.

Import EnsembleClassifier.

Context {F : Type} `{Numeric F} {C : Type} `{Classifier.Interface F C}.

Implicit Types (self : object F) (h : Heap C) (x y : ndarray F)
  (q : C -> result (ndarray F)).

(** Whatever the raw call does, the aggregated call does the same and then
    sums over the member axis; an exception of the raw call is the
    exception of the aggregated call. *)
Lemma predict_probabilities_is_sum_of_raw self h x :
  predict self h x false false
  = (a <- predict self h x false true ;; np_sum0 a).
Proof.
  rewrite !predict_unfold. simpl.
  destruct (weighted_stack self h _) as [a|e]; simpl; [|reflexivity].
  destruct (np_sum0 a); reflexivity.
Qed.

Lemma class_gradient_is_sum_of_raw self h x label logits :
  class_gradient self h x label logits false
  = (a <- class_gradient self h x label logits true ;; np_sum0 a).
Proof.
  rewrite !class_gradient_unfold.
  destruct (weighted_stack self h _); reflexivity.
Qed.

Lemma loss_gradient_is_sum_of_raw self h x y :
  loss_gradient self h x y false
  = (a <- loss_gradient self h x y true ;; np_sum0 a).
Proof.
  rewrite !loss_gradient_unfold.
  destruct (weighted_stack self h _); reflexivity.
Qed.

(** The stack of a constructed ensemble, spelled out: its rows are the
    member answers with every entry multiplied by the member's weight,
    and its sum over the member axis is taken entry by entry. *)
Lemma stack_explicit h learning cv cs ws self q outs s :
  __init__ h learning cv cs ws = OK self ->
  _nb_classifiers self <= length (_classifier_weights self) ->
  member_outputs q h (_classifiers self) outs ->
  Forall (fun p => shape p = s /\ well_formed p) outs ->
  let n := _nb_classifiers self in
  let weights := firstn n (_classifier_weights self) in
  weighted_stack self h q
    = OK {| shape := n :: s; data := concat (scaled_rows weights outs) |} /\
  np_sum0 {| shape := n :: s; data := concat (scaled_rows weights outs) |}
    = OK {| shape := s;
            data := pointwise_sum n (size_of s)
                      (concat (scaled_rows weights outs)) |} /\
  pointwise_sum n (size_of s) (concat (scaled_rows weights outs))
    = map (weighted_entry weights outs) (seq 0 (size_of s)).
Proof.
  intros Hi Hw Hout Hsh n weights.
  destruct (init_members _ _ _ _ _ _ Hi) as (_ & Hne & Hn & _).
  destruct (weighted_stack_returns self h q outs s Hne Hn Hw Hout Hsh)
    as [Hstack Hsum].
  rewrite Hstack in Hsum. cbn [bind] in Hsum.
  assert (Hrows : map data
                    (map (fun wp => scale (fst wp) (snd wp))
                       (combine weights outs))
                  = scaled_rows weights outs)
    by (unfold scaled_rows; rewrite map_map; reflexivity).
  fold n in Hstack, Hsum. fold weights in Hstack, Hsum.
  rewrite Hrows in Hstack, Hsum.
  assert (Hlens : Forall (fun p => length (data p) = size_of s) outs).
  { eapply Forall_impl; [|exact Hsh]. intros p [Hs Hwf].
    unfold well_formed in Hwf. now rewrite Hwf, Hs. }
  assert (Huni : Forall (fun r => length r = size_of s)
                   (scaled_rows weights outs)).
  { unfold scaled_rows. apply Forall_map, Forall_forall.
    intros [w p] Hin. apply in_combine_r in Hin.
    rewrite Forall_forall in Hlens. cbn. rewrite length_map.
    now apply Hlens. }
  assert (Hlen : length (scaled_rows weights outs) = n).
  { unfold scaled_rows, weights.
    rewrite length_map, length_combine, length_firstn.
    pose proof (member_outputs_length _ _ _ _ Hout). lia. }
  assert (Hpw : pointwise_sum n (size_of s)
                  (concat (scaled_rows weights outs))
                = sum_rows (size_of s) (scaled_rows weights outs)).
  { destruct (scaled_rows weights outs) as [|r rs] eqn:E.
    - exfalso. simpl in Hlen. unfold n in Hlen.
      destruct (_classifiers self); [congruence | simpl in Hn; lia].
    - rewrite <- Hlen. now apply pointwise_sum_concat. }
  split; [exact Hstack|]. split.
  - rewrite Hsum, Hpw. reflexivity.
  - rewrite Hpw. now apply sum_scaled_rows.
Qed.

(** C8, as far as it holds.  For an ensemble built by the constructor
    that has a weight for every member, and arguments on which the
    members' [class_gradient] return genuine arrays of one shape,
    [class_gradient] with [raw=True] returns the stack of the member
    gradients, each multiplied by its weight (first axis: the members),
    and with [raw=False] it returns the sum of that stack over the member
    axis, taken entry by entry.  The same holds for [loss_gradient] on
    arguments on which the members' [loss_gradient] return genuine arrays
    of one shape. *)
Theorem gradients_raw_sum h learning cv cs ws self x y label logits :
  __init__ h learning cv cs ws = OK self ->
  _nb_classifiers self <= length (_classifier_weights self) ->
  let n := _nb_classifiers self in
  let weights := firstn n (_classifier_weights self) in
  (forall outs s,
      member_outputs (fun m => Classifier.class_gradient m x label logits) h
        (_classifiers self) outs ->
      Forall (fun g => shape g = s /\ well_formed g) outs ->
      exists a z,
        class_gradient self h x label logits true = OK a /\
        shape a = n :: s /\
        data a = concat (scaled_rows weights outs) /\
        class_gradient self h x label logits false = OK z /\
        shape z = s /\
        data z = pointwise_sum n (size_of s) (data a)) /\
  (forall outs s,
      member_outputs (fun m => Classifier.loss_gradient m x y) h
        (_classifiers self) outs ->
      Forall (fun g => shape g = s /\ well_formed g) outs ->
      exists a z,
        loss_gradient self h x y true = OK a /\
        shape a = n :: s /\
        data a = concat (scaled_rows weights outs) /\
        loss_gradient self h x y false = OK z /\
        shape z = s /\
        data z = pointwise_sum n (size_of s) (data a)).
Proof.
  intros Hi Hw n weights. split; intros outs s Hout Hsh.
  - destruct (stack_explicit _ _ _ _ _ _ _ _ _ Hi Hw Hout Hsh)
      as (Ha & Hz & _).
    eexists; eexists. rewrite !class_gradient_unfold, Ha. cbn [bind].
    rewrite Hz. repeat split.
  - destruct (stack_explicit _ _ _ _ _ _ _ _ _ Hi Hw Hout Hsh)
      as (Ha & Hz & _).
    eexists; eexists. rewrite !loss_gradient_unfold, Ha. cbn [bind].
    rewrite Hz. repeat split.
Qed.

(** C1, as far as it holds.  For an ensemble built by the constructor
    that has a weight for every member:  on an input for which the
    members' probability predictions are genuine arrays of one shape,
    [predict] with [raw=True] and [logits=False] returns the stack of
    these predictions, each multiplied by its weight (first axis: the
    members); with [raw=False] and [logits=False] it returns the sum of
    that stack over the member axis, taken entry by entry; and with
    [raw=False] and [logits=True] it returns [log(clip(., eps, 1 - eps))]
    of that sum, [eps] being the literal [10e-8].  On an input for which
    the members' logit predictions are genuine arrays of one shape,
    [predict] with [raw=True] and [logits=True] returns the stack of the
    weighted logits, first axis the members. *)
Theorem predict_raw_sum h learning cv cs ws self x :
  __init__ h learning cv cs ws = OK self ->
  _nb_classifiers self <= length (_classifier_weights self) ->
  let n := _nb_classifiers self in
  let weights := firstn n (_classifier_weights self) in
  (forall outs s,
      member_outputs (fun m => Classifier.predict m x false) h
        (_classifiers self) outs ->
      Forall (fun p => shape p = s /\ well_formed p) outs ->
      exists a z,
        predict self h x false true = OK a /\
        shape a = n :: s /\
        data a = concat (scaled_rows weights outs) /\
        predict self h x false false = OK z /\
        shape z = s /\
        data z = pointwise_sum n (size_of s) (data a) /\
        predict self h x true false
          = OK {| shape := s;
                  data := map (fun v =>
                                 flog (fmin (fsub (flit 1 0) (flit 10 (-8)))
                                         (fmax v (flit 10 (-8)))))
                            (data z) |}) /\
  (forall outs s,
      member_outputs (fun m => Classifier.predict m x true) h
        (_classifiers self) outs ->
      Forall (fun p => shape p = s /\ well_formed p) outs ->
      exists a,
        predict self h x true true = OK a /\
        shape a = n :: s /\
        data a = concat (scaled_rows weights outs)).
Proof.
  intros Hi Hw n weights. split; intros outs s Hout Hsh.
  - destruct (stack_explicit _ _ _ _ _ _ _ _ _ Hi Hw Hout Hsh)
      as (Ha & Hz & _).
    eexists; eexists. rewrite !predict_unfold. unfold andb.
    rewrite Ha. cbn [bind]. rewrite Hz. cbn [bind].
    repeat split.
    unfold np_log, np_clip. cbn [shape data]. now rewrite map_map.
  - destruct (stack_explicit _ _ _ _ _ _ _ _ _ Hi Hw Hout Hsh)
      as (Ha & _ & _).
    eexists. rewrite predict_unfold. unfold andb.
    rewrite Ha. cbn [bind]. repeat split.
Qed.

End RawAndSum.

Section RawAndSumRuns.

Import EnsembleClassifier.

Ltac decide_reals :=
  repeat match goal with
         | |- context [Req_dec_T ?a ?b] =>
             destruct (Req_dec_T a b); [|exfalso; lra]
         end.

Ltac entries :=
  unfold pointwise_sum, weighted_sum, weighted_entry; simpl;
  repeat (f_equal; try lra).

Lemma gradients_raw_sum_witness :
  (exists a z,
      class_gradient (Fixture.uniform_pair None) Fixture.store Fixture.x0
        (Some 1%Z) true true = OK a /\
      shape a = [2; 1; 2] /\
      data a = [(1 / 2)%R; (- 1 / 2)%R; 0%R; 1%R] /\
      class_gradient (Fixture.uniform_pair None) Fixture.store Fixture.x0
        (Some 1%Z) true false = OK z /\
      shape z = [1; 2] /\
      data z = [(1 / 2)%R; (1 / 2)%R]) /\
  (exists a z,
      loss_gradient (Fixture.uniform_pair None) Fixture.store Fixture.x0
        Fixture.y0 true = OK a /\
      shape a = [2; 1; 2] /\
      data a = [(1 / 2)%R; (- 1 / 2)%R; 0%R; 1%R] /\
      loss_gradient (Fixture.uniform_pair None) Fixture.store Fixture.x0
        Fixture.y0 false = OK z /\
      shape z = [1; 2] /\
      data z = [(1 / 2)%R; (1 / 2)%R]).
Proof.
  assert (Hw : _nb_classifiers (Fixture.uniform_pair None)
               <= length (_classifier_weights (Fixture.uniform_pair None)))
    by (simpl; lia).
  destruct (gradients_raw_sum Fixture.store None (0, 1)%R
              Fixture.pair_of_members None (Fixture.uniform_pair None)
              Fixture.x0 Fixture.y0 (Some 1%Z) true
              (init_uniform_pair None) Hw) as [Wc Wl].
  split.
  - destruct (Wc [stub_gradient Fixture.undecided;
                  stub_gradient Fixture.confident] [1; 2])
      as (a & z & Ha & Hsa & Hda & Hz & Hsz & Hdz).
    + repeat constructor; eexists; split; reflexivity.
    + repeat constructor.
    + rewrite Hda in Hdz. simpl in Hda, Hdz, Hsa, Hsz.
      exists a, z. repeat split; try assumption.
      * rewrite Hda. entries.
      * rewrite Hdz. entries.
  - destruct (Wl [stub_gradient Fixture.undecided;
                  stub_gradient Fixture.confident] [1; 2])
      as (a & z & Ha & Hsa & Hda & Hz & Hsz & Hdz).
    + repeat constructor; eexists; split; reflexivity.
    + repeat constructor.
    + rewrite Hda in Hdz. simpl in Hda, Hdz, Hsa, Hsz.
      exists a, z. repeat split; try assumption.
      * rewrite Hda. entries.
      * rewrite Hdz. entries.
Defined.

(** C8 fails when the raw call does not return.  An ensemble built with
    one weight per member raises the exception of a member whose gradient
    query raises, and an ensemble built with one weight for two members
    raises [IndexError]; in neither case is there a stack to sum. *)
Lemma gradients_raw_sum_counterexample :
  (__init__ Cases.brittle_store None (0, 1)%R (Some [Inst 0; Inst 1])
     (Some [1%R; 1%R]) = OK Cases.brittle_pair /\
   class_gradient Cases.brittle_pair Cases.brittle_store Fixture.x0 None
     false true = Err (MemberError 3) /\
   loss_gradient Cases.brittle_pair Cases.brittle_store Fixture.x0
     Fixture.y0 true = Err (MemberError 3)) /\
  (__init__ Fixture.store None (0, 1)%R Fixture.pair_of_members
     (Some [2%R]) = OK Cases.short_pair /\
   class_gradient Cases.short_pair Fixture.store Fixture.x0 None
     false true = Err IndexError /\
   loss_gradient Cases.short_pair Fixture.store Fixture.x0
     Fixture.y0 true = Err IndexError).
Proof.
  split; (split; [|split; reflexivity]).
  - unfold __init__, Cases.brittle_pair. simpl.
    unfold clip_values_ne. simpl. decide_reals. reflexivity.
  - unfold __init__, Fixture.pair_of_members, Cases.short_pair. simpl.
    unfold clip_values_ne. simpl. decide_reals. reflexivity.
Qed.

Lemma predict_raw_sum_witness :
  (exists a z,
      predict (Fixture.uniform_pair None) Fixture.store Fixture.x0
        false true = OK a /\
      shape a = [2; 1; 2] /\
      data a = [(1 / 4)%R; (1 / 4)%R; (1 / 2)%R; 0%R] /\
      predict (Fixture.uniform_pair None) Fixture.store Fixture.x0
        false false = OK z /\
      shape z = [1; 2] /\
      data z = [(3 / 4)%R; (1 / 4)%R] /\
      predict (Fixture.uniform_pair None) Fixture.store Fixture.x0
        true false
        = OK {| shape := [1; 2];
                data := [ln (3 / 4); ln (1 / 4)] |}) /\
  (exists a,
      predict (Fixture.uniform_pair None) Fixture.store Fixture.x0
        true true = OK a /\
      shape a = [2; 1; 2] /\
      data a = [0%R; 0%R; (9 / 2)%R; (- 9 / 2)%R]).
Proof.
  assert (Hw : _nb_classifiers (Fixture.uniform_pair None)
               <= length (_classifier_weights (Fixture.uniform_pair None)))
    by (simpl; lia).
  destruct (predict_raw_sum Fixture.store None (0, 1)%R
              Fixture.pair_of_members None (Fixture.uniform_pair None)
              Fixture.x0 (init_uniform_pair None) Hw) as [Wp Wl].
  split.
  - destruct (Wp [stub_probabilities Fixture.undecided;
                  stub_probabilities Fixture.confident] [1; 2])
      as (a & z & Ha & Hsa & Hda & Hz & Hsz & Hdz & Hlog).
    + repeat constructor; eexists; split; reflexivity.
    + repeat constructor.
    + rewrite Hda in Hdz. simpl in Hda, Hdz, Hsa, Hsz.
      exists a, z. repeat split; try assumption.
      * rewrite Hda. entries.
      * rewrite Hdz. entries.
      * rewrite Hlog, Hdz. unfold pointwise_sum. simpl.
        replace (Rmax (1 * 1 / 2 * (1 / 2) + 1 * 1 / 2 * 1)
                   (10 * / (10 * (10 * (10 * (10 * (10 * (10 * (10 *
                      (10 * 1)))))))))) with (3 / 4)%R
          by (rewrite Rmax_left by lra; lra).
        replace (Rmax (1 * 1 / 2 * (1 / 2) + 1 * 1 / 2 * 0)
                   (10 * / (10 * (10 * (10 * (10 * (10 * (10 * (10 *
                      (10 * 1)))))))))) with (1 / 4)%R
          by (rewrite Rmax_left by lra; lra).
        rewrite !Rmin_right by lra. reflexivity.
  - destruct (Wl [Fixture.vec [0%R; 0%R];
                  Fixture.vec [9%R; (-9)%R]] [1; 2])
      as (a & Ha & Hsa & Hda).
    + repeat constructor; eexists; split; reflexivity.
    + repeat constructor.
    + simpl in Hda, Hsa. exists a. repeat split; try assumption.
      rewrite Hda. entries.
Defined.

(** C1 fails for [logits=True].  Two members with uniform weights: the
    raw call stacks the weighted logits, whose sum at class 0 is [9/2];
    the aggregated call returns the logarithm of the averaged
    probability [3/4], which is negative.  The two differ by more than
    [4]. *)
Lemma predict_raw_sum_logits_counterexample :
  __init__ Fixture.store None (0, 1)%R Fixture.pair_of_members None
    = OK (Fixture.uniform_pair None) /\
  exists a t b u v,
    predict (Fixture.uniform_pair None) Fixture.store Fixture.x0
      true true = OK a /\
    np_sum0 a = OK t /\
    predict (Fixture.uniform_pair None) Fixture.store Fixture.x0
      true false = OK b /\
    nth_error (data t) 0 = Some u /\
    nth_error (data b) 0 = Some v /\
    (u - v > 4)%R.
Proof.
  split; [apply init_uniform_pair|].
  unfold predict. simpl.
  do 5 eexists.
  split; [reflexivity|]. split; [reflexivity|]. split; [reflexivity|].
  simpl. split; [reflexivity|]. split; [reflexivity|].
  assert (Hmax : Rmax (1 * 1 / 2 * (1 / 2) + 1 * 1 / 2 * 1)
                   (10 * / (10 * (10 * (10 * (10 * (10 * (10 * (10 *
                      (10 * 1))))))))) = (3 / 4)%R).
  { rewrite Rmax_left by lra. lra. }
  rewrite Hmax. rewrite Rmin_right by lra.
  assert (Hln : (ln (3 / 4) < 0)%R).
  { rewrite <- ln_1. apply ln_increasing; lra. }
  lra.
Qed.

End RawAndSumRuns.

(** ** How the members are queried *)

Section MemberQueries.

Import EnsembleClassifier.

Context {F : Type} `{Numeric F} {C : Type} `{Classifier.Interface F C}.

Implicit Types (self : object F) (h : Heap C) (x : ndarray F)
  (q : C -> result (ndarray F)).

(** The stack depends on the members only through their answers to the
    query. *)
Lemma weighted_stack_ext self h h' q q' :
  (forall r, q (h r) = q' (h' r)) ->
  weighted_stack self h q = weighted_stack self h' q'.
Proof.
  intros Hq. unfold weighted_stack. f_equal.
  apply comprehension_ext. intros i _.
  destruct (getitem (_classifier_weights self) i); simpl; [|reflexivity].
  destruct (getitem (_classifiers self) i) as [[r|v]|]; simpl;
    try reflexivity.
  now rewrite Hq.
Qed.

(** The first failing body decides the exception of a comprehension. *)
Lemma comprehension_first_error (A B : Type) (f : A -> result B)
  (l1 l2 : list A) (a : A) (e : exn) :
  (forall b, In b l1 -> exists v, f b = OK v) ->
  f a = Err e ->
  comprehension f (l1 ++ a :: l2) = Err e.
Proof.
  induction l1 as [|b l1 IH]; simpl; intros Hok Ha.
  - now rewrite Ha.
  - destruct (Hok b (or_introl eq_refl)) as [v ->]. simpl.
    rewrite IH; auto.
Qed.

(** The members are queried in order: the exception of the first member
    whose query fails is the exception of the stack. *)
Lemma weighted_stack_member_raises self h q i r e :
  i < _nb_classifiers self ->
  i < length (_classifier_weights self) ->
  nth_error (_classifiers self) i = Some (Inst r) ->
  (forall j, j < i -> exists rj p,
      nth_error (_classifiers self) j = Some (Inst rj) /\ q (h rj) = OK p) ->
  q (h r) = Err e ->
  weighted_stack self h q = Err e.
Proof.
  intros Hi Hw Hc Hbefore Hq. unfold weighted_stack, range.
  replace (_nb_classifiers self) with (i + S (_nb_classifiers self - S i))
    by lia.
  rewrite seq_app. simpl seq.
  rewrite comprehension_first_error with (e := e); [reflexivity| |].
  - intros j Hj. apply in_seq in Hj.
    destruct (Hbefore j ltac:(lia)) as (rj & p & Hcj & Hqj).
    unfold getitem. rewrite Hcj.
    destruct (nth_error (_classifier_weights self) j) as [w|] eqn:Hwj.
    + simpl. rewrite Hqj. simpl. eauto.
    + apply nth_error_None in Hwj. lia.
  - unfold getitem. rewrite Hc.
    destruct (nth_error (_classifier_weights self) i) as [w|] eqn:Hwi.
    + simpl. now rewrite Hq.
    + apply nth_error_None in Hwi. lia.
Qed.

(** C2. The flag handed to the members is [raw and logits]: the result of
    [predict] is the same in any two stores whose members agree on
    [predict(x, raw and logits)], and the first member that raises on
    [predict(x, raw and logits)] makes [predict] raise the same
    exception.  The flag is set only when both arguments are. *)
Theorem predict_member_flag self h x logits raw :
  (forall h',
      (forall r, Classifier.predict (h r) x (raw && logits)
                 = Classifier.predict (h' r) x (raw && logits)) ->
      predict self h x logits raw = predict self h' x logits raw) /\
  (forall i r e,
      i < _nb_classifiers self ->
      i < length (_classifier_weights self) ->
      nth_error (_classifiers self) i = Some (Inst r) ->
      (forall j, j < i -> exists rj p,
          nth_error (_classifiers self) j = Some (Inst rj) /\
          Classifier.predict (h rj) x (raw && logits) = OK p) ->
      Classifier.predict (h r) x (raw && logits) = Err e ->
      predict self h x logits raw = Err e) /\
  ((raw && logits = true) <-> (raw = true /\ logits = true)).
Proof.
  split; [|split].
  - intros h' Hagree. rewrite !predict_unfold.
    now rewrite (weighted_stack_ext self h h'
                   (fun m => Classifier.predict m x (raw && logits))
                   (fun m => Classifier.predict m x (raw && logits)) Hagree).
  - intros i r e Hi Hw Hc Hbefore Hq. rewrite predict_unfold.
    now rewrite (weighted_stack_member_raises self h _ i r e
                   Hi Hw Hc Hbefore Hq).
  - apply andb_true_iff.
Qed.


(** C9. The five unsupported operations raise [NotImplementedError]
    whatever they are given. *)
Theorem unsupported_operations_raise (self : object F) (x y : ndarray F)
  (batch_size nb_epochs : Z) (generator layer : PyVal)
  (filename : String.string) (path : option String.string) :
  fit self x y batch_size nb_epochs = Err NotImplementedError /\
  fit_generator self generator nb_epochs = Err NotImplementedError /\
  layer_names self = Err NotImplementedError /\
  get_activations self x layer = Err NotImplementedError /\
  save self filename path = Err NotImplementedError.
Proof. repeat split. Qed.

End MemberQueries.

Section MemberQueriesRuns.

Import EnsembleClassifier.

Lemma predict_member_flag_witness :
  predict Fixture.mixed_pair Fixture.store Fixture.x0 true true
    = Err (MemberError 7) /\
  predict Fixture.mixed_pair Fixture.store Fixture.x0 true false
    = predict Fixture.mixed_pair
        (fun r => Classifier.set_learning_phase (Fixture.store r) true)
        Fixture.x0 true false.
Proof.
  destruct (predict_member_flag Fixture.mixed_pair Fixture.store Fixture.x0
              true true) as (_ & Hraise & _).
  destruct (predict_member_flag Fixture.mixed_pair Fixture.store Fixture.x0
              true false) as (Hagree & _).
  split.
  - apply (Hraise 1 2 (MemberError 7)); simpl; try lia; try reflexivity.
    intros j Hj. assert (j = 0) as -> by lia.
    eexists; eexists; split; reflexivity.
  - apply Hagree. intros r. reflexivity.
Defined.



End MemberQueriesRuns.

(** ** Weights *)

Section Rows.

Context {F : Type} `{Numeric F}.

(** The [i]-th block of a buffer made of equally long rows. *)
Lemma block_of_concat (k : nat) (rows : list (list F)) (i : nat)
  (r : list F) :
  Forall (fun r' => length r' = k) rows ->
  nth_error rows i = Some r ->
  firstn k (skipn (i * k) (concat rows)) = r.
Proof.
  intros Hall. revert i. induction Hall as [|r0 rows Hr0 _ IH];
    intros [|i] Hi; simpl in *; try discriminate.
  - inversion Hi; subst.
    rewrite firstn_app, Nat.sub_diag, firstn_all2 by lia.
    simpl. apply app_nil_r.
  - rewrite skipn_app, skipn_all2 by lia. simpl.
    replace (k + i * k - length r0) with (i * k) by lia.
    now apply IH.
Qed.

Lemma nth_error_combine_some (A B : Type) (l1 : list A) (l2 : list B)
  (i : nat) (a : A) (b : B) :
  nth_error l1 i = Some a -> nth_error l2 i = Some b ->
  nth_error (combine l1 l2) i = Some (a, b).
Proof.
  revert l2 i. induction l1 as [|a1 l1 IH]; intros [|b2 l2] [|i];
    simpl; try discriminate.
  - congruence.
  - apply IH.
Qed.

End Rows.


Section Weights.

Import EnsembleClassifier.

Context {F : Type} `{Numeric F} {C : Type} `{Classifier.Interface F C}.

Implicit Types (self : object F) (h : Heap C) (x y : ndarray F)
  (q : C -> result (ndarray F)).

(** Row [i] of the stack is member [i]'s answer with every entry
    multiplied by the weight at position [i], and nothing else. *)
Lemma stack_row_explicit (n : nat) (s : list nat) (ws : list F)
  (outs : list (ndarray F)) (i : nat) (w : F) (p : ndarray F) :
  length outs = n ->
  Forall (fun p' => shape p' = s /\ well_formed p') outs ->
  nth_error ws i = Some w ->
  nth_error outs i = Some p ->
  np_getitem0 {| shape := n :: s;
                 data := concat (scaled_rows (firstn n ws) outs) |} i
  = OK {| shape := shape p; data := map (fmul w) (data p) |}.
Proof.
  intros Hlen Hsh Hw Hp.
  assert (Hi : i < n).
  { rewrite <- Hlen. apply nth_error_Some. congruence. }
  assert (Hps : shape p = s /\ well_formed p).
  { rewrite Forall_forall in Hsh. apply Hsh.
    eapply nth_error_In; eassumption. }
  destruct Hps as [Hps Hpw].
  unfold np_getitem0. cbn [shape data].
  destruct (Nat.ltb_spec i n) as [_|]; [|lia].
  rewrite Hps. do 2 f_equal.
  apply block_of_concat.
  - unfold scaled_rows. apply Forall_map, Forall_forall.
    intros [w' p'] Hin. apply in_combine_r in Hin.
    rewrite Forall_forall in Hsh. destruct (Hsh p' Hin) as [Hs' Hw'].
    cbn. rewrite length_map. unfold well_formed in Hw'.
    now rewrite Hw', Hs'.
  - unfold scaled_rows. rewrite nth_error_map.
    rewrite (nth_error_combine_some _ _ _ _ i w p); [reflexivity| |assumption].
    rewrite nth_error_firstn.
    destruct (Nat.ltb_spec i n); [assumption|lia].
Qed.

(** Both results of a query on a constructed ensemble, in terms of the
    member answers. *)
Lemma query_explicit h learning cv cs ws self q outs s :
  __init__ h learning cv cs ws = OK self ->
  _nb_classifiers self <= length (_classifier_weights self) ->
  member_outputs q h (_classifiers self) outs ->
  Forall (fun p => shape p = s /\ well_formed p) outs ->
  (exists a,
      weighted_stack self h q = OK a /\
      forall i w p,
        nth_error (_classifier_weights self) i = Some w ->
        nth_error outs i = Some p ->
        np_getitem0 a i
        = OK {| shape := shape p; data := map (fmul w) (data p) |}) /\
  (a <- weighted_stack self h q ;; np_sum0 a)
  = OK (weighted_sum (firstn (_nb_classifiers self)
                        (_classifier_weights self)) outs s).
Proof.
  intros Hi Hw Hout Hsh.
  destruct (stack_explicit _ _ _ _ _ _ _ _ _ Hi Hw Hout Hsh)
    as (Ha & Hz & Hpw).
  destruct (init_members _ _ _ _ _ _ Hi) as (_ & _ & Hn & _).
  pose proof (member_outputs_length _ _ _ _ Hout) as Hlo.
  split.
  - eexists. split; [exact Ha|].
    intros i w p Hwi Hpi.
    apply stack_row_explicit; try assumption. lia.
  - rewrite Ha. cbn [bind]. rewrite Hz. unfold weighted_sum.
    now rewrite Hpw.
Qed.

(** C10. Weights given to the constructor are stored as they are.  Row
    [i] of the raw result of [predict], [class_gradient] and
    [loss_gradient] is member [i]'s answer with every entry multiplied by
    the weight at position [i], and the aggregated result adds these
    products up over the members; nothing rescales the weights. *)
Theorem explicit_weights_used h learning cv cs ws self x y label logits :
  __init__ h learning cv cs (Some ws) = OK self ->
  _nb_classifiers self <= length ws ->
  let n := _nb_classifiers self in
  _classifier_weights self = ws /\
  (forall outs s,
      member_outputs (fun m => Classifier.predict m x logits) h
        (_classifiers self) outs ->
      Forall (fun p => shape p = s /\ well_formed p) outs ->
      exists a,
        predict self h x logits true = OK a /\
        forall i w p,
          nth_error ws i = Some w -> nth_error outs i = Some p ->
          np_getitem0 a i
          = OK {| shape := shape p; data := map (fmul w) (data p) |}) /\
  (forall outs s,
      member_outputs (fun m => Classifier.predict m x false) h
        (_classifiers self) outs ->
      Forall (fun p => shape p = s /\ well_formed p) outs ->
      predict self h x false false = OK (weighted_sum (firstn n ws) outs s)) /\
  (forall outs s,
      member_outputs (fun m => Classifier.class_gradient m x label logits) h
        (_classifiers self) outs ->
      Forall (fun g => shape g = s /\ well_formed g) outs ->
      (exists a,
          class_gradient self h x label logits true = OK a /\
          forall i w g,
            nth_error ws i = Some w -> nth_error outs i = Some g ->
            np_getitem0 a i
            = OK {| shape := shape g; data := map (fmul w) (data g) |}) /\
      class_gradient self h x label logits false
        = OK (weighted_sum (firstn n ws) outs s)) /\
  (forall outs s,
      member_outputs (fun m => Classifier.loss_gradient m x y) h
        (_classifiers self) outs ->
      Forall (fun g => shape g = s /\ well_formed g) outs ->
      (exists a,
          loss_gradient self h x y true = OK a /\
          forall i w g,
            nth_error ws i = Some w -> nth_error outs i = Some g ->
            np_getitem0 a i
            = OK {| shape := shape g; data := map (fmul w) (data g) |}) /\
      loss_gradient self h x y false
        = OK (weighted_sum (firstn n ws) outs s)).
Proof.
  intros Hi Hw n.
  assert (Hws : _classifier_weights self = ws).
  { destruct (init_OK_inv _ _ _ _ _ _ Hi)
      as (first & rest & ishape & ncls & _ & _ & _ & _ & ->).
    reflexivity. }
  rewrite <- Hws in Hw. split; [assumption|]. rewrite <- Hws.
  split; [|split; [|split]]; intros outs s Hout Hsh.
  - destruct (query_explicit _ _ _ _ _ _ _ _ _ Hi Hw Hout Hsh)
      as ((a & Ha & Hrow) & _).
    exists a. rewrite predict_unfold. unfold andb. rewrite Ha.
    split; [reflexivity | exact Hrow].
  - destruct (query_explicit _ _ _ _ _ _ _ _ _ Hi Hw Hout Hsh)
      as (_ & Hsum).
    rewrite predict_unfold. unfold andb.
    destruct (weighted_stack self h
                (fun m => Classifier.predict m x false)) as [a|];
      unfold bind in *; [|discriminate].
    now rewrite Hsum.
  - destruct (query_explicit _ _ _ _ _ _ _ _ _ Hi Hw Hout Hsh)
      as ((a & Ha & Hrow) & Hsum).
    rewrite !class_gradient_unfold. split.
    + exists a. rewrite Ha. split; [reflexivity | exact Hrow].
    + rewrite Ha in *. exact Hsum.
  - destruct (query_explicit _ _ _ _ _ _ _ _ _ Hi Hw Hout Hsh)
      as ((a & Ha & Hrow) & Hsum).
    rewrite !loss_gradient_unfold. split.
    + exists a. rewrite Ha. split; [reflexivity | exact Hrow].
    + rewrite Ha in *. exact Hsum.
Qed.




End Weights.

Section WeightsRuns.

Import EnsembleClassifier.

Ltac entries :=
  unfold pointwise_sum, weighted_sum, weighted_entry; simpl;
  repeat (f_equal; try lra).

Lemma explicit_weights_used_witness :
  __init__ Fixture.store None (0, 1)%R Fixture.pair_of_members
    (Some [2%R; 3%R]) = OK (Fixture.weighted_pair None) /\
  (2 + 3 <> 1)%R /\
  _classifier_weights (Fixture.weighted_pair None) = [2%R; 3%R] /\
  (exists a,
      predict (Fixture.weighted_pair None) Fixture.store Fixture.x0
        false true = OK a /\
      np_getitem0 a 0
        = OK {| shape := [1; 2];
                data := [(2 * (1 / 2))%R; (2 * (1 / 2))%R] |} /\
      np_getitem0 a 1
        = OK {| shape := [1; 2]; data := [(3 * 1)%R; (3 * 0)%R] |}) /\
  predict (Fixture.weighted_pair None) Fixture.store Fixture.x0 false false
    = OK {| shape := [1; 2]; data := [4%R; 1%R] |} /\
  class_gradient (Fixture.weighted_pair None) Fixture.store Fixture.x0
    None false false
    = OK {| shape := [1; 2]; data := [2%R; 4%R] |} /\
  loss_gradient (Fixture.weighted_pair None) Fixture.store Fixture.x0
    Fixture.y0 false
    = OK {| shape := [1; 2]; data := [2%R; 4%R] |}.
Proof.
  split; [apply init_weighted_pair|]. split; [lra|].
  assert (Hw : _nb_classifiers (Fixture.weighted_pair None)
               <= length [2%R; 3%R]) by (simpl; lia).
  destruct (explicit_weights_used Fixture.store None (0, 1)%R
              Fixture.pair_of_members [2%R; 3%R]
              (Fixture.weighted_pair None) Fixture.x0 Fixture.y0 None
              false (init_weighted_pair None) Hw)
    as (Hws & Hraw & Hsum & Hcg & Hlg).
  split; [exact Hws|].
  assert (Hsh : forall u v : list R,
             length u = 2 -> length v = 2 ->
             Forall (fun p : ndarray R => shape p = [1; 2] /\ well_formed p)
               [Fixture.vec u; Fixture.vec v]).
  { intros u v Hu Hv. repeat constructor; simpl; try (now rewrite ?Hu, ?Hv).
    - unfold well_formed. simpl. lia.
    - unfold well_formed. simpl. lia. }
  split; [|split; [|split]].
  - destruct (Hraw [stub_probabilities Fixture.undecided;
                    stub_probabilities Fixture.confident] [1; 2])
      as (a & Ha & Hrow).
    + repeat constructor; eexists; split; reflexivity.
    + apply Hsh; reflexivity.
    + exists a. split; [exact Ha|]. split.
      * exact (Hrow 0 2%R _ eq_refl eq_refl).
      * exact (Hrow 1 3%R _ eq_refl eq_refl).
  - rewrite (Hsum [stub_probabilities Fixture.undecided;
                   stub_probabilities Fixture.confident] [1; 2]).
    + entries.
    + repeat constructor; eexists; split; reflexivity.
    + apply Hsh; reflexivity.
  - destruct (Hcg [stub_gradient Fixture.undecided;
                   stub_gradient Fixture.confident] [1; 2]) as (_ & Hg).
    + repeat constructor; eexists; split; reflexivity.
    + apply Hsh; reflexivity.
    + rewrite Hg. entries.
  - destruct (Hlg [stub_gradient Fixture.undecided;
                   stub_gradient Fixture.confident] [1; 2]) as (_ & Hg).
    + repeat constructor; eexists; split; reflexivity.
    + apply Hsh; reflexivity.
    + rewrite Hg. entries.
Defined.



(** The literal [10e-8] of the source and the literal [1e-7] are the same
    double. *)
Lemma literal_eps_binary64 (log : PrimFloat.float -> PrimFloat.float) :
  @flit _ (Float64.numeric log) 10 (-8) = @flit _ (Float64.numeric log) 1 (-7).
Proof. vm_compute. reflexivity. Qed.

End WeightsRuns.

(** ** Construction *)

Section Construction.

Import EnsembleClassifier.

Context {F : Type} `{Numeric F} {C : Type} `{Classifier.Interface F C}.

Implicit Types (self : object F) (h : Heap C) (x y : ndarray F).

(** On a list of classifiers the compatibility loop either passes or
    raises [ValueError]. *)
Lemma check_instances h cv r0 (l : list ref) :
  check_classifiers h cv (Inst r0) (map Inst l) = OK tt \/
  check_classifiers h cv (Inst r0) (map Inst l) = Err ValueError.
Proof.
  induction l as [|r l IH]; simpl; [now left|].
  destruct (clip_values_ne cv (Classifier.clip_values (h r))); [now right|].
  destruct (Z.eqb _ _); simpl; [|now right].
  destruct (list_eqb Z.eqb _ _); simpl; [|now right].
  exact IH.
Qed.

(** C6. The constructor raises [ValueError] when the list of classifiers
    is absent or empty, when some member's [clip_values] differs from the
    configured one, and when some member's [nb_classes] or [input_shape]
    differs from that of the first member; no instance is built. *)
Theorem init_rejects h learning cv (members : option (list ref)) ws :
  members = None \/
  members = Some [] \/
  (exists r0 rest r,
      members = Some (r0 :: rest) /\ In r (r0 :: rest) /\
      (clip_values_ne cv (Classifier.clip_values (h r)) = true \/
       Classifier.nb_classes (h r) <> Classifier.nb_classes (h r0) \/
       Classifier.input_shape (h r) <> Classifier.input_shape (h r0))) ->
  __init__ h learning cv (option_map (map Inst) members) ws = Err ValueError.
Proof.
  intros [-> | [-> | (r0 & rest & r & -> & Hin & Hbad)]];
    [reflexivity | reflexivity |].
  unfold __init__. cbn [option_map map].
  change (Inst r0 :: map Inst rest) with (map Inst (r0 :: rest)).
  destruct (check_instances h cv r0 (r0 :: rest)) as [Hok | Herr];
    [|now rewrite Herr].
  exfalso. apply check_classifiers_OK in Hok.
  rewrite Forall_forall in Hok.
  destruct (Hok (Inst r) (in_map Inst _ _ Hin)) as (r' & Er & Hcv & Hn & Hs).
  inversion Er; subst r'. simpl in Hn, Hs.
  destruct Hbad as [Hb | [Hb | Hb]]; congruence.
Qed.

(** An item that is not a classifier is reported as [TypeError] when the
    loop reaches it, here at the head of the list. *)
Lemma init_non_classifier_first h learning cv v rest ws :
  __init__ h learning cv (Some (NotClassifier v :: rest)) ws = Err TypeError.
Proof. reflexivity. Qed.

(** The constructor never looks at the weights it is given. *)
Lemma init_weights_irrelevant h learning cv cs ws ws' self :
  __init__ h learning cv cs ws = OK self ->
  exists self', __init__ h learning cv cs ws' = OK self' /\
                _classifiers self' = _classifiers self /\
                _nb_classifiers self' = _nb_classifiers self.
Proof.
  intros Hi. destruct (init_OK_inv _ _ _ _ _ _ Hi)
    as (first & rest & ishape & ncls & -> & Hc & Hs & Hn & ->).
  unfold __init__. rewrite Hc, Hs, Hn. cbn [bind].
  eexists; split; [reflexivity|]. split; reflexivity.
Qed.

(** A missing weight surfaces as an exception of the query. *)
Lemma too_few_weights_raise self h q :
  length (_classifier_weights self) < _nb_classifiers self ->
  exists e, weighted_stack self h q = Err e.
Proof.
  intros Hlt. unfold weighted_stack.
  destruct (comprehension_fails _ _
              (fun i =>
                 w <- getitem (_classifier_weights self) i ;;
                 c <- getitem (_classifiers self) i ;;
                 p <- call h c q ;;
                 OK (scale w p))
              (range (_nb_classifiers self))
              (length (_classifier_weights self)) IndexError)
    as [e He].
  - apply in_seq. lia.
  - unfold getitem.
    now rewrite (proj2 (nth_error_None _ _) (Nat.le_refl _)).
  - rewrite He. simpl. eauto.
Qed.

(** C4, as far as it holds.  The constructor does not compare the length
    of the weights with the number of members: whenever it accepts the
    members, it accepts them with any weights and stores the weights
    unchanged.  Weights that are too few only show later, when [predict],
    [class_gradient] and [loss_gradient] raise. *)
Theorem init_ignores_weights_length h learning cv cs self0 ws :
  __init__ h learning cv cs None = OK self0 ->
  exists self,
    __init__ h learning cv cs (Some ws) = OK self /\
    _classifier_weights self = ws /\
    _nb_classifiers self = _nb_classifiers self0 /\
    (length ws < _nb_classifiers self ->
     forall x y label logits raw,
       (exists e, predict self h x logits raw = Err e) /\
       (exists e, class_gradient self h x label logits raw = Err e) /\
       (exists e, loss_gradient self h x y raw = Err e)).
Proof.
  intros Hi0.
  destruct (init_weights_irrelevant _ _ _ _ _ (Some ws) _ Hi0)
    as (self & Hi & _ & Hn).
  exists self. split; [assumption|].
  assert (Hws : _classifier_weights self = ws).
  { destruct (init_OK_inv _ _ _ _ _ _ Hi)
      as (first & rest & ishape & ncls & _ & _ & _ & _ & ->).
    reflexivity. }
  split; [assumption|]. split; [assumption|].
  intros Hlt x y label logits raw. rewrite <- Hws in Hlt.
  rewrite predict_unfold, class_gradient_unfold, loss_gradient_unfold.
  repeat split.
  - destruct (too_few_weights_raise self h
                (fun m => Classifier.predict m x (raw && logits)) Hlt)
      as [e ->]. simpl. eauto.
  - destruct (too_few_weights_raise self h
                (fun m => Classifier.class_gradient m x label logits) Hlt)
      as [e ->]. simpl. eauto.
  - destruct (too_few_weights_raise self h
                (fun m => Classifier.loss_gradient m x y) Hlt)
      as [e ->]. simpl. eauto.
Qed.

End Construction.

Section ConstructionRuns.

Import EnsembleClassifier.

Ltac decide_reals :=
  repeat match goal with
         | |- context [Req_dec_T ?a ?b] =>
             destruct (Req_dec_T a b); [|exfalso; lra]
         end.

Lemma init_rejects_witness :
  __init__ Fixture.store None (0, 1)%R (Some [Inst 0; Inst 3]) None
  = Err ValueError.
Proof.
  apply (init_rejects Fixture.store None (0, 1)%R (Some [0; 3]) None).
  right; right. exists 0, [3], 3.
  split; [reflexivity|]. split; [simpl; auto|].
  right; left. simpl. discriminate.
Defined.

(** C4 fails: two members and three weights are accepted, and the
    instance answers queries. *)
Lemma init_checks_weights_length_counterexample :
  __init__ Fixture.store None (0, 1)%R Fixture.pair_of_members
    (Some [2%R; 3%R; 5%R]) = OK Fixture.surplus_pair /\
  length (_classifier_weights Fixture.surplus_pair)
    <> _nb_classifiers Fixture.surplus_pair /\
  predict Fixture.surplus_pair Fixture.store Fixture.x0 false false
    = OK {| shape := [1; 2];
            data := [(2 * (1 / 2) + 3 * 1)%R; (2 * (1 / 2) + 3 * 0)%R] |}.
Proof.
  split; [|split].
  - unfold __init__, Fixture.pair_of_members, Fixture.surplus_pair.
    simpl. unfold clip_values_ne. simpl. decide_reals. reflexivity.
  - simpl. lia.
  - reflexivity.
Qed.

Lemma init_ignores_weights_length_witness :
  exists self,
    __init__ Fixture.store None (0, 1)%R Fixture.pair_of_members
      (Some [2%R]) = OK self /\
    _classifier_weights self = [2%R] /\
    _nb_classifiers self = 2 /\
    exists e, predict self Fixture.store Fixture.x0 false false = Err e.
Proof.
  destruct (init_ignores_weights_length Fixture.store None (0, 1)%R
              Fixture.pair_of_members (Fixture.uniform_pair None) [2%R]
              (init_uniform_pair None))
    as (self & Hi & Hws & Hn & Hraise).
  exists self. split; [exact Hi|]. split; [exact Hws|].
  split; [exact Hn|].
  destruct (Hraise ltac:(rewrite Hn; simpl; lia)
              Fixture.x0 Fixture.y0 None false false) as (Hp & _).
  exact Hp.
Defined.

End ConstructionRuns.

(** ** The learning phase *)

Section LearningPhase.

Import EnsembleClassifier.

Context {F : Type} `{Numeric F} {C : Type} `{Classifier.Interface F C}.

Implicit Types (self : object F) (h : Heap C).

(** After the loop every object has received the call once for each of
    its occurrences in the member list; other objects are untouched. *)
Lemma propagate_spec (b : bool) (l : list item) h :
  Forall (fun c => exists r, c = Inst r) l ->
  exists h',
    propagate b l h = OK h' /\
    forall r, h' r = Nat.iter (occurrences r l)
                       (fun c => Classifier.set_learning_phase c b) (h r).
Proof.
  intros Hall. revert h.
  induction Hall as [|c l (r0 & ->) _ IH]; intros h; simpl.
  - exists h. split; [reflexivity | reflexivity].
  - destruct (IH (update h r0 (Classifier.set_learning_phase (h r0) b)))
      as (h' & Hp & Hh').
    exists h'. split; [assumption|].
    intros r. rewrite Hh'. unfold update.
    rewrite (Nat.eqb_sym r0 r).
    destruct (Nat.eqb_spec r r0) as [->|Hne]; simpl.
    + symmetry.
      exact (Nat.iter_succ_r (occurrences r0 l) _
               (fun c => Classifier.set_learning_phase c b) (h r0)).
    + reflexivity.
Qed.

(** What the body does on an instance that has the attribute: nothing
    for a [train] that is not a boolean or a [_learning] that is [None],
    and otherwise the call on every member followed by the record. *)
Lemma set_learning_phase_with_attribute self h train learning :
  _learning self = Some learning ->
  Forall (fun c => exists r, c = Inst r) (_classifiers self) ->
  (isinstance_bool train = false ->
   set_learning_phase self h train = OK (self, h)) /\
  (learning = PyNone ->
   set_learning_phase self h train = OK (self, h)) /\
  (forall b, train = PyBool b -> learning <> PyNone ->
   exists self' h',
     set_learning_phase self h train = OK (self', h') /\
     _learning_phase self' = Some b /\
     _classifiers self' = _classifiers self /\
     forall r,
       h' r = Nat.iter (occurrences r (_classifiers self))
                (fun c => Classifier.set_learning_phase c b) (h r)).
Proof.
  intros Hl Hall. unfold set_learning_phase. rewrite Hl.
  split; [|split].
  - intros ->. now rewrite andb_false_r.
  - intros ->. reflexivity.
  - intros b -> Hne.
    destruct (propagate_spec b (_classifiers self) h Hall) as (h' & Hp & Hh').
    destruct learning; try congruence; simpl;
      rewrite Hp; simpl; eexists; exists h'; repeat split; assumption.
Qed.

(** C5 does not hold of the code.  The guard reads [self._learning], an
    attribute that neither the constructor nor any other method of the
    class assigns.  On an instance built over a base class that leaves no
    such attribute, [set_learning_phase] raises [AttributeError] for every
    argument, boolean or not, in every store. *)
Theorem set_learning_phase_attribute_error h cv cs ws self h' train :
  __init__ h None cv cs ws = OK self ->
  set_learning_phase self h' train = Err AttributeError.
Proof.
  intros Hi.
  destruct (init_OK_inv _ _ _ _ _ _ Hi)
    as (first & rest & ishape & ncls & _ & _ & _ & _ & ->).
  reflexivity.
Qed.

End LearningPhase.

Section LearningPhaseRuns.

Import EnsembleClassifier.

Lemma set_learning_phase_attribute_error_witness :
  __init__ Fixture.store None (0, 1)%R Fixture.pair_of_members None
    = OK (Fixture.uniform_pair None) /\
  set_learning_phase (Fixture.uniform_pair None) Fixture.store (PyBool true)
    = Err AttributeError /\
  set_learning_phase (Fixture.uniform_pair None) Fixture.store
    Fixture.not_a_bool = Err AttributeError.
Proof.
  split; [apply init_uniform_pair|]. split.
  - exact (set_learning_phase_attribute_error Fixture.store (0, 1)%R
             Fixture.pair_of_members None (Fixture.uniform_pair None)
             Fixture.store (PyBool true) (init_uniform_pair None)).
  - exact (set_learning_phase_attribute_error Fixture.store (0, 1)%R
             Fixture.pair_of_members None (Fixture.uniform_pair None)
             Fixture.store Fixture.not_a_bool (init_uniform_pair None)).
Defined.

End LearningPhaseRuns.

(** ** More on construction *)

Section ConstructionMore.

Import EnsembleClassifier.

Context {F : Type} `{Numeric F} {C : Type} `{Classifier.Interface F C}.

Implicit Types (self : object F) (h : Heap C).

(** The loop over a concatenation runs over the front part first. *)
Lemma check_classifiers_app h cv first l1 l2 :
  check_classifiers h cv first (l1 ++ l2)
  = (_ <- check_classifiers h cv first l1 ;;
     check_classifiers h cv first l2).
Proof.
  induction l1 as [|c l1 IH]; simpl; [reflexivity|].
  destruct c as [r|v]; [|reflexivity].
  destruct (clip_values_ne cv (Classifier.clip_values (h r))); [reflexivity|].
  destruct (getattr Classifier.nb_classes h first); simpl; [|reflexivity].
  destruct (negb _); [reflexivity|].
  destruct (getattr Classifier.input_shape h first); simpl; [|reflexivity].
  destruct (negb _); [reflexivity|].
  exact IH.
Qed.

Lemma check_classifiers_pass h cv r0 (l : list ref) :
  Forall (fun r =>
            clip_values_ne cv (Classifier.clip_values (h r)) = false /\
            Classifier.nb_classes (h r) = Classifier.nb_classes (h r0) /\
            Classifier.input_shape (h r) = Classifier.input_shape (h r0)) l ->
  check_classifiers h cv (Inst r0) (map Inst l) = OK tt.
Proof.
  induction 1 as [|r l (Hcv & Hn & Hs) _ IH]; simpl; [reflexivity|].
  rewrite Hcv, Hn, Hs, Z.eqb_refl. simpl.
  rewrite (proj2 (list_eqb_Z_eq _ _) eq_refl). simpl. exact IH.
Qed.

(** The constructor accepts exactly the non-empty lists of classifiers
    whose members all carry the configured [clip_values] and the
    [nb_classes] and [input_shape] of the first member; the weights and
    whatever the base class left play no part in the decision. *)
Theorem init_succeeds_iff h learning cv cs ws :
  (exists self, __init__ h learning cv cs ws = OK self) <->
  (exists r0 rest,
      cs = Some (map Inst (r0 :: rest)) /\
      Forall (fun r =>
                clip_values_ne cv (Classifier.clip_values (h r)) = false /\
                Classifier.nb_classes (h r) = Classifier.nb_classes (h r0) /\
                Classifier.input_shape (h r) = Classifier.input_shape (h r0))
        (r0 :: rest)).
Proof.
  split.
  - intros [self Hi].
    destruct (init_OK_inv _ _ _ _ _ _ Hi)
      as (first & rest & ishape & ncls & -> & Hc & _ & _ & _).
    pose proof (check_classifiers_OK _ _ _ _ Hc) as Hall.
    assert (Hfirst : exists r0, first = Inst r0).
    { inversion Hall as [|c l (r & -> & _) _]; eauto. }
    destruct Hfirst as [r0 ->].
    assert (Hrefs : exists l, Inst r0 :: rest = map Inst l /\
              Forall (fun r =>
                clip_values_ne cv (Classifier.clip_values (h r)) = false /\
                Classifier.nb_classes (h r) = Classifier.nb_classes (h r0) /\
                Classifier.input_shape (h r) = Classifier.input_shape (h r0))
                l).
    { clear Hc Hi. induction Hall as [|c l (r & -> & Hcv & Hn & Hs) _ IH].
      - exists []. split; [reflexivity | constructor].
      - destruct IH as (l' & -> & Hl'). exists (r :: l').
        split; [reflexivity|]. constructor; [|assumption].
        simpl in Hn, Hs. inversion Hn; inversion Hs. auto. }
    destruct Hrefs as ([|r0' l] & El & Hl); [discriminate|].
    simpl in El. inversion El; subst r0'. subst rest.
    exists r0, l. split; [reflexivity | assumption].
  - intros (r0 & rest & -> & Hall).
    unfold __init__. cbn [map].
    change (Inst r0 :: map Inst rest) with (map Inst (r0 :: rest)).
    rewrite (check_classifiers_pass h cv r0 (r0 :: rest) Hall).
    simpl. eauto.
Qed.

(** An instance mirrors its members: it holds at least one member, counts
    them, keeps the configured [clip_values], and its [nb_classes] and
    [input_shape] are those of every member. *)
Theorem init_mirrors_members h learning cv cs ws self :
  __init__ h learning cv cs ws = OK self ->
  1 <= _nb_classifiers self /\
  _nb_classifiers self = length (_classifiers self) /\
  _clip_values self = cv /\
  _learning_phase self = None /\
  forall c, In c (_classifiers self) ->
    exists r, c = Inst r /\
      clip_values_ne (_clip_values self) (Classifier.clip_values (h r))
        = false /\
      _nb_classes self = Classifier.nb_classes (h r) /\
      _input_shape self = Classifier.input_shape (h r).
Proof.
  intros Hi.
  destruct (init_OK_inv _ _ _ _ _ _ Hi)
    as (first & rest & ishape & ncls & _ & Hc & Hs & Hn & ->).
  cbn [_nb_classifiers _classifiers _clip_values _learning_phase
       _nb_classes _input_shape].
  repeat split; [simpl; lia|].
  intros c Hin. pose proof (check_classifiers_OK _ _ _ _ Hc) as Hall.
  rewrite Forall_forall in Hall.
  destruct (Hall c Hin) as (r & -> & Hcv & Hn' & Hs').
  exists r. repeat split; congruence.
Qed.

(** The loop reports the first offending item: when the classifiers in
    front of an object of another type all pass, the constructor raises
    [TypeError], whatever follows that object. *)
Theorem init_type_error h learning cv (front : list ref) v rest ws :
  Forall (fun r =>
            clip_values_ne cv (Classifier.clip_values (h r)) = false /\
            Classifier.nb_classes (h r)
              = Classifier.nb_classes (h (hd 0 front)) /\
            Classifier.input_shape (h r)
              = Classifier.input_shape (h (hd 0 front))) front ->
  __init__ h learning cv (Some (map Inst front ++ NotClassifier v :: rest)) ws
  = Err TypeError.
Proof.
  intros Hall. destruct front as [|r0 front]; [reflexivity|].
  unfold __init__. cbn [map app hd] in *.
  change (Inst r0 :: map Inst front ++ NotClassifier v :: rest)
    with (map Inst (r0 :: front) ++ NotClassifier v :: rest).
  rewrite check_classifiers_app.
  rewrite (check_classifiers_pass h cv r0 (r0 :: front) Hall).
  reflexivity.
Qed.

Lemma check_classifiers_mismatch h cv r0 r rest :
  clip_values_ne cv (Classifier.clip_values (h r)) = true \/
  Classifier.nb_classes (h r) <> Classifier.nb_classes (h r0) \/
  Classifier.input_shape (h r) <> Classifier.input_shape (h r0) ->
  check_classifiers h cv (Inst r0) (Inst r :: rest) = Err ValueError.
Proof.
  intros Hbad. simpl.
  destruct (clip_values_ne cv (Classifier.clip_values (h r))) eqn:Hcv;
    [reflexivity|].
  destruct (Z.eqb_spec (Classifier.nb_classes (h r))
              (Classifier.nb_classes (h r0))) as [Hn|Hn]; simpl;
    [|reflexivity].
  destruct (list_eqb Z.eqb (Classifier.input_shape (h r))
              (Classifier.input_shape (h r0))) eqn:Hs; simpl;
    [|reflexivity].
  apply list_eqb_Z_eq in Hs.
  destruct Hbad as [Hb | [Hb | Hb]]; congruence.
Qed.

(** A classifier that disagrees is reported as [ValueError] when the
    classifiers in front of it all pass, whatever follows it, objects of
    other types included. *)
Theorem init_value_error h learning cv (front : list ref) r rest ws :
  Forall (fun r' =>
            clip_values_ne cv (Classifier.clip_values (h r')) = false /\
            Classifier.nb_classes (h r')
              = Classifier.nb_classes (h (hd r front)) /\
            Classifier.input_shape (h r')
              = Classifier.input_shape (h (hd r front))) front ->
  clip_values_ne cv (Classifier.clip_values (h r)) = true \/
  Classifier.nb_classes (h r) <> Classifier.nb_classes (h (hd r front)) \/
  Classifier.input_shape (h r) <> Classifier.input_shape (h (hd r front)) ->
  __init__ h learning cv (Some (map Inst front ++ Inst r :: rest)) ws
  = Err ValueError.
Proof.
  intros Hall Hbad. unfold __init__.
  destruct front as [|r0 front]; cbn [map app hd] in *.
  - now rewrite (check_classifiers_mismatch h cv r r rest Hbad).
  - change (Inst r0 :: map Inst front ++ Inst r :: rest)
      with (map Inst (r0 :: front) ++ Inst r :: rest).
    rewrite check_classifiers_app.
    rewrite (check_classifiers_pass h cv r0 (r0 :: front) Hall).
    cbn [bind].
    now rewrite (check_classifiers_mismatch h cv r0 r rest Hbad).
Qed.

End ConstructionMore.

Section ConstructionMoreRuns.

Import EnsembleClassifier.

Lemma init_mirrors_members_witness :
  1 <= _nb_classifiers (Fixture.uniform_pair None) /\
  _nb_classifiers (Fixture.uniform_pair None)
    = length (_classifiers (Fixture.uniform_pair None)) /\
  _clip_values (Fixture.uniform_pair None) = (0, 1)%R /\
  _learning_phase (Fixture.uniform_pair None) = None /\
  forall c, In c (_classifiers (Fixture.uniform_pair None)) ->
    exists r, c = Inst r /\
      clip_values_ne (_clip_values (Fixture.uniform_pair None))
        (Classifier.clip_values (Fixture.store r)) = false /\
      _nb_classes (Fixture.uniform_pair None)
        = Classifier.nb_classes (Fixture.store r) /\
      _input_shape (Fixture.uniform_pair None)
        = Classifier.input_shape (Fixture.store r).
Proof.
  exact (init_mirrors_members Fixture.store None (0, 1)%R
           Fixture.pair_of_members None (Fixture.uniform_pair None)
           (init_uniform_pair None)).
Defined.

Lemma init_type_error_witness :
  __init__ Fixture.store None (0, 1)%R
    (Some [Inst 0; Inst 1; NotClassifier (PyInt 5); Inst 3]) None
  = Err TypeError.
Proof.
  apply (init_type_error Fixture.store None (0, 1)%R [0; 1] (PyInt 5)
           [Inst 3] None).
  repeat constructor; simpl; unfold clip_values_ne; simpl;
    repeat match goal with
           | |- context [Req_dec_T ?a ?b] =>
               destruct (Req_dec_T a b); [|exfalso; lra]
           end; reflexivity.
Defined.

Lemma init_value_error_witness :
  __init__ Fixture.store None (0, 1)%R
    (Some [Inst 0; Inst 1; Inst 3; NotClassifier (PyInt 5)]) None
  = Err ValueError.
Proof.
  apply (init_value_error Fixture.store None (0, 1)%R [0; 1] 3
           [NotClassifier (PyInt 5)] None).
  - repeat constructor; simpl; unfold clip_values_ne; simpl;
      repeat match goal with
             | |- context [Req_dec_T ?a ?b] =>
                 destruct (Req_dec_T a b); [|exfalso; lra]
             end; reflexivity.
  - right; left. simpl. discriminate.
Defined.

End ConstructionMoreRuns.

(** ** More on the queries *)

Section QueriesMore.

Import EnsembleClassifier.

Context {F : Type} `{Numeric F} {C : Type} `{Classifier.Interface F C}.

Implicit Types (self : object F) (h : Heap C) (x y : ndarray F)
  (q : C -> result (ndarray F)).

(** Only the weights at the positions of the members are read. *)
Lemma weighted_stack_weights_prefix self self' h q :
  _classifiers self' = _classifiers self ->
  _nb_classifiers self' = _nb_classifiers self ->
  firstn (_nb_classifiers self) (_classifier_weights self')
    = firstn (_nb_classifiers self) (_classifier_weights self) ->
  weighted_stack self' h q = weighted_stack self h q.
Proof.
  intros Hc Hn Hw. unfold weighted_stack. rewrite Hc, Hn. f_equal.
  apply comprehension_ext. intros i Hi. apply in_seq in Hi.
  assert (Hg : getitem (_classifier_weights self') i
               = getitem (_classifier_weights self) i).
  { unfold getitem.
    pose proof (nth_error_firstn (_nb_classifiers self)
                  (_classifier_weights self') i) as E1.
    pose proof (nth_error_firstn (_nb_classifiers self)
                  (_classifier_weights self) i) as E2.
    destruct (Nat.ltb_spec i (_nb_classifiers self)); [|lia].
    rewrite <- E1, <- E2, Hw. reflexivity. }
  now rewrite Hg.
Qed.

(** Weights beyond the number of members are never read: appending
    entries to a weight list that covers every member changes no result
    of [predict], [class_gradient] or [loss_gradient]. *)
Theorem surplus_weights_ignored h learning cv cs ws extra self self' :
  __init__ h learning cv cs (Some ws) = OK self ->
  __init__ h learning cv cs (Some (ws ++ extra)) = OK self' ->
  _nb_classifiers self <= length ws ->
  forall x y label logits raw,
    predict self' h x logits raw = predict self h x logits raw /\
    class_gradient self' h x label logits raw
      = class_gradient self h x label logits raw /\
    loss_gradient self' h x y raw = loss_gradient self h x y raw.
Proof.
  intros Hi Hi' Hlen x y label logits raw.
  destruct (init_OK_inv _ _ _ _ _ _ Hi)
    as (first & rest & ishape & ncls & -> & _ & _ & _ & ->).
  destruct (init_OK_inv _ _ _ _ _ _ Hi')
    as (first' & rest' & ishape' & ncls' & E & _ & _ & _ & ->).
  inversion E; subst first' rest'. cbn [_nb_classifiers] in Hlen.
  rewrite !predict_unfold, !class_gradient_unfold, !loss_gradient_unfold.
  repeat split.
  all: rewrite (weighted_stack_weights_prefix
                  {| _learning := learning; _learning_phase := None;
                     _nb_classifiers := length (first :: rest);
                     _input_shape := ishape; _nb_classes := ncls;
                     _clip_values := cv; _classifier_weights := ws;
                     _classifiers := first :: rest |});
    try reflexivity;
    cbn [_nb_classifiers _classifier_weights];
    rewrite firstn_app;
    replace (length (first :: rest) - length ws) with 0 by lia;
    simpl firstn at 2; apply app_nil_r.
Qed.

(** The weight is looked up before the member is asked.  When the weights
    run out at a position whose predecessors all answer, the stack raises
    [IndexError], whatever the member at that position would do. *)
Lemma weighted_stack_index_error self h q :
  length (_classifier_weights self) < _nb_classifiers self ->
  (forall j, j < length (_classifier_weights self) ->
     exists rj p,
       nth_error (_classifiers self) j = Some (Inst rj) /\ q (h rj) = OK p) ->
  weighted_stack self h q = Err IndexError.
Proof.
  intros Hlt Hbefore. unfold weighted_stack, range.
  set (k := length (_classifier_weights self)) in *.
  replace (_nb_classifiers self) with (k + S (_nb_classifiers self - S k))
    by lia.
  rewrite seq_app. simpl seq.
  rewrite comprehension_first_error with (e := IndexError); [reflexivity| |].
  - intros j Hj. apply in_seq in Hj.
    destruct (Hbefore j ltac:(lia)) as (rj & p & Hcj & Hqj).
    unfold getitem. rewrite Hcj.
    destruct (nth_error (_classifier_weights self) j) as [w|] eqn:Hwj.
    + simpl. rewrite Hqj. simpl. eauto.
    + apply nth_error_None in Hwj. fold k in Hwj. lia.
  - unfold getitem, k.
    now rewrite (proj2 (nth_error_None _ _) (Nat.le_refl _)).
Qed.

(** With fewer weights than members, and members that answer up to the
    position where the weights run out, each query raises [IndexError]. *)
Theorem missing_weight_index_error self h x y label logits raw :
  length (_classifier_weights self) < _nb_classifiers self ->
  (forall j, j < length (_classifier_weights self) ->
     exists rj p g g',
       nth_error (_classifiers self) j = Some (Inst rj) /\
       Classifier.predict (h rj) x (raw && logits) = OK p /\
       Classifier.class_gradient (h rj) x label logits = OK g /\
       Classifier.loss_gradient (h rj) x y = OK g') ->
  predict self h x logits raw = Err IndexError /\
  class_gradient self h x label logits raw = Err IndexError /\
  loss_gradient self h x y raw = Err IndexError.
Proof.
  intros Hlt Hbefore.
  rewrite predict_unfold, class_gradient_unfold, loss_gradient_unfold.
  repeat split.
  all: rewrite weighted_stack_index_error; [reflexivity | assumption |].
  all: intros j Hj;
    destruct (Hbefore j Hj) as (rj & p & g & g' & Hc & Hp & Hg & Hg');
    eauto.
Qed.

(** An exception raised by a member during a gradient query reaches the
    caller unchanged: when the members before it answer that query, the
    first member whose [class_gradient] raises decides what
    [class_gradient] raises, and likewise for [loss_gradient], with
    [raw=True] as with [raw=False]. *)
Theorem gradient_member_raises self h x y label logits raw i r :
  i < _nb_classifiers self ->
  i < length (_classifier_weights self) ->
  nth_error (_classifiers self) i = Some (Inst r) ->
  (forall e,
      (forall j, j < i -> exists rj g,
          nth_error (_classifiers self) j = Some (Inst rj) /\
          Classifier.class_gradient (h rj) x label logits = OK g) ->
      Classifier.class_gradient (h r) x label logits = Err e ->
      class_gradient self h x label logits raw = Err e) /\
  (forall e,
      (forall j, j < i -> exists rj g,
          nth_error (_classifiers self) j = Some (Inst rj) /\
          Classifier.loss_gradient (h rj) x y = OK g) ->
      Classifier.loss_gradient (h r) x y = Err e ->
      loss_gradient self h x y raw = Err e).
Proof.
  intros Hi Hw Hc. split; intros e Hbefore He.
  - rewrite class_gradient_unfold.
    now rewrite (weighted_stack_member_raises self h _ i r e
                   Hi Hw Hc Hbefore He).
  - rewrite loss_gradient_unfold.
    now rewrite (weighted_stack_member_raises self h _ i r e
                   Hi Hw Hc Hbefore He).
Qed.

End QueriesMore.

Section QueriesMoreRuns.

Import EnsembleClassifier.

Ltac decide_reals :=
  repeat match goal with
         | |- context [Req_dec_T ?a ?b] =>
             destruct (Req_dec_T a b); [|exfalso; lra]
         end.

Lemma init_surplus_pair :
  __init__ Fixture.store None (0, 1)%R Fixture.pair_of_members
    (Some ([2%R; 3%R] ++ [5%R])) = OK Fixture.surplus_pair.
Proof.
  unfold __init__, Fixture.pair_of_members, Fixture.surplus_pair.
  simpl. unfold clip_values_ne. simpl. decide_reals. reflexivity.
Qed.

Lemma init_solo :
  __init__ Fixture.store None (0, 1)%R (Some [Inst 1]) None = OK Cases.solo.
Proof.
  unfold __init__, Cases.solo.
  simpl. unfold clip_values_ne. simpl. decide_reals. reflexivity.
Qed.

Lemma surplus_weights_ignored_witness :
  predict Fixture.surplus_pair Fixture.store Fixture.x0 true false
    = predict (Fixture.weighted_pair None) Fixture.store Fixture.x0
        true false /\
  class_gradient Fixture.surplus_pair Fixture.store Fixture.x0 None false true
    = class_gradient (Fixture.weighted_pair None) Fixture.store Fixture.x0
        None false true /\
  loss_gradient Fixture.surplus_pair Fixture.store Fixture.x0 Fixture.y0 false
    = loss_gradient (Fixture.weighted_pair None) Fixture.store Fixture.x0
        Fixture.y0 false.
Proof.
  pose proof (surplus_weights_ignored Fixture.store None (0, 1)%R
                Fixture.pair_of_members [2%R; 3%R] [5%R]
                (Fixture.weighted_pair None) Fixture.surplus_pair
                (init_weighted_pair None) init_surplus_pair
                (le_n 2)) as W.
  destruct (W Fixture.x0 Fixture.y0 None true false) as (Hp & _ & Hl).
  destruct (W Fixture.x0 Fixture.y0 None false true) as (_ & Hc & _).
  split; [exact Hp|]. split; [exact Hc | exact Hl].
Defined.

Lemma missing_weight_index_error_witness :
  Classifier.predict (Fixture.store 2) Fixture.x0 true = Err (MemberError 7) /\
  predict Cases.short_mixed_pair Fixture.store Fixture.x0 true true
    = Err IndexError /\
  class_gradient Cases.short_mixed_pair Fixture.store Fixture.x0 None true true
    = Err IndexError /\
  loss_gradient Cases.short_mixed_pair Fixture.store Fixture.x0 Fixture.y0 true
    = Err IndexError.
Proof.
  split; [reflexivity|].
  apply (missing_weight_index_error Cases.short_mixed_pair Fixture.store
           Fixture.x0 Fixture.y0 None true true).
  - simpl; lia.
  - intros j Hj. simpl in Hj. assert (j = 0) as -> by lia.
    exists 0. do 3 eexists. repeat split; reflexivity.
Defined.

Lemma gradient_member_raises_witness :
  class_gradient Cases.brittle_pair Cases.brittle_store Fixture.x0 None
    false false = Err (MemberError 3) /\
  loss_gradient Cases.brittle_pair Cases.brittle_store Fixture.x0 Fixture.y0
    true = Err (MemberError 3).
Proof.
  assert (Hbefore : forall j, j < 1 -> exists rj g,
             nth_error (_classifiers Cases.brittle_pair) j = Some (Inst rj) /\
             Cases.brittle_query (Cases.brittle_store rj) = OK g).
  { intros j Hj. assert (j = 0) as -> by lia.
    exists 0. eexists. split; reflexivity. }
  destruct (gradient_member_raises Cases.brittle_pair Cases.brittle_store
              Fixture.x0 Fixture.y0 None false false 1 1)
    as [Hc _]; try (simpl; lia); try reflexivity.
  destruct (gradient_member_raises Cases.brittle_pair Cases.brittle_store
              Fixture.x0 Fixture.y0 None false true 1 1)
    as [_ Hl]; try (simpl; lia); try reflexivity.
  split.
  - apply (Hc (MemberError 3) Hbefore). reflexivity.
  - apply (Hl (MemberError 3) Hbefore). reflexivity.
Defined.

End QueriesMoreRuns.

(** ** Shapes of the results *)

Section Shapes.

Import EnsembleClassifier.

Context {F : Type} `{Numeric F} {C : Type} `{Classifier.Interface F C}.

Implicit Types (self : object F) (h : Heap C) (x y : ndarray F)
  (q : C -> result (ndarray F)).

Lemma length_fold_rows (k : nat) (rs : list (list F)) (r : list F) :
  length r = k -> Forall (fun r' => length r' = k) rs ->
  length (fold_left (zip_with fadd) rs r) = k.
Proof.
  intros Hr Hrs. revert r Hr.
  induction Hrs as [|r' rs Hr' _ IH]; intros r Hr; simpl; [assumption|].
  apply IH. rewrite length_zip_with. lia.
Qed.

Lemma length_sum_rows (k : nat) (rows : list (list F)) :
  Forall (fun r => length r = k) rows -> length (sum_rows k rows) = k.
Proof.
  destruct rows as [|r rs]; simpl; intros Hall.
  - apply repeat_length.
  - apply length_fold_rows.
    + exact (Forall_inv Hall).
    + exact (Forall_inv_tail Hall).
Qed.

Lemma length_concat_uniform (k : nat) (rows : list (list F)) :
  Forall (fun r => length r = k) rows ->
  length (concat rows) = length rows * k.
Proof.
  induction 1 as [|r rows Hr _ IH]; simpl; [reflexivity|].
  rewrite length_app. lia.
Qed.

(** Both the stack and its sum are genuine arrays. *)
Lemma constructed_stack_well_formed h learning cv cs ws self q s :
  __init__ h learning cv cs ws = OK self ->
  _nb_classifiers self <= length (_classifier_weights self) ->
  members_return q h (_classifiers self) s ->
  exists a t,
    weighted_stack self h q = OK a /\
    shape a = _nb_classifiers self :: s /\ well_formed a /\
    np_sum0 a = OK t /\ shape t = s /\ well_formed t.
Proof.
  intros Hi Hw Hm.
  destruct (init_members _ _ _ _ _ _ Hi) as (_ & Hne & Hn & _).
  destruct (members_return_outputs _ _ _ _ Hm) as (outs & Hout & Hsh).
  destruct (weighted_stack_returns self h q outs s Hne Hn Hw Hout Hsh)
    as [Hstack Hsum].
  rewrite Hstack in Hsum. simpl in Hsum.
  set (rows := map (fun wp => scale (fst wp) (snd wp))
                 (combine (firstn (_nb_classifiers self)
                             (_classifier_weights self)) outs)) in *.
  assert (Hlr : length rows = _nb_classifiers self).
  { unfold rows. rewrite length_map, length_combine, length_firstn.
    pose proof (member_outputs_length _ _ _ _ Hout). lia. }
  assert (Hrows : Forall (fun r => length r = size_of s) (map data rows)).
  { unfold rows. apply Forall_map, Forall_map, Forall_forall.
    intros [w p] Hin. apply in_combine_r in Hin.
    rewrite Forall_forall in Hsh. destruct (Hsh p Hin) as [Hs Hwf].
    cbn. rewrite length_map. unfold well_formed in Hwf.
    now rewrite Hwf, Hs. }
  eexists; eexists. split; [exact Hstack|].
  split; [reflexivity|]. split.
  { unfold well_formed. cbn [shape data size_of fold_right].
    rewrite (length_concat_uniform (size_of s) _ Hrows), length_map, Hlr.
    reflexivity. }
  split; [exact Hsum|]. split; [reflexivity|].
  unfold well_formed. cbn [shape data].
  now apply length_sum_rows.
Qed.

(** The results have the shapes the docstrings give.  When the members
    answer with genuine arrays of one shape [s], the aggregated result of
    each query is a genuine array of shape [s], also after the conversion
    to logits, and the raw result is a genuine array of shape
    [nb_classifiers :: s]. *)
Theorem results_well_formed h learning cv cs ws self x y label logits
  s1 s2 s3 :
  __init__ h learning cv cs ws = OK self ->
  _nb_classifiers self <= length (_classifier_weights self) ->
  members_return (fun m => Classifier.predict m x false) h
    (_classifiers self) s1 ->
  members_return (fun m => Classifier.class_gradient m x label logits) h
    (_classifiers self) s2 ->
  members_return (fun m => Classifier.loss_gradient m x y) h
    (_classifiers self) s3 ->
  (forall as_logits, exists z,
      predict self h x as_logits false = OK z /\
      shape z = s1 /\ well_formed z) /\
  (exists a, predict self h x false true = OK a /\
             shape a = _nb_classifiers self :: s1 /\ well_formed a) /\
  (exists g a,
      class_gradient self h x label logits false = OK g /\
      shape g = s2 /\ well_formed g /\
      class_gradient self h x label logits true = OK a /\
      shape a = _nb_classifiers self :: s2 /\ well_formed a) /\
  (exists g a,
      loss_gradient self h x y false = OK g /\
      shape g = s3 /\ well_formed g /\
      loss_gradient self h x y true = OK a /\
      shape a = _nb_classifiers self :: s3 /\ well_formed a).
Proof.
  intros Hi Hw Hp Hc Hl.
  destruct (constructed_stack_well_formed _ _ _ _ _ _ _ _ Hi Hw Hp)
    as (a1 & t1 & Ha1 & Hsa1 & Hwa1 & Ht1 & Hst1 & Hwt1).
  destruct (constructed_stack_well_formed _ _ _ _ _ _ _ _ Hi Hw Hc)
    as (a2 & t2 & Ha2 & Hsa2 & Hwa2 & Ht2 & Hst2 & Hwt2).
  destruct (constructed_stack_well_formed _ _ _ _ _ _ _ _ Hi Hw Hl)
    as (a3 & t3 & Ha3 & Hsa3 & Hwa3 & Ht3 & Hst3 & Hwt3).
  split; [|split; [|split]].
  - intros as_logits. rewrite predict_unfold. cbn [andb].
    rewrite Ha1. cbn [bind]. rewrite Ht1. cbn [bind].
    destruct as_logits.
    + eexists. split; [reflexivity|]. split; [exact Hst1|].
      unfold well_formed, np_log, np_clip in *. cbn [shape data].
      now rewrite !length_map.
    + exists t1. auto.
  - exists a1. rewrite predict_unfold. cbn [andb]. rewrite Ha1. auto.
  - exists t2, a2. rewrite !class_gradient_unfold, Ha2. cbn [bind].
    rewrite Ht2. auto 7.
  - exists t3, a3. rewrite !loss_gradient_unfold, Ha3. cbn [bind].
    rewrite Ht3. auto 7.
Qed.

End Shapes.

Section ShapesRuns.

Import EnsembleClassifier.

Lemma results_well_formed_witness :
  (forall as_logits, exists z,
      predict (Fixture.uniform_pair None) Fixture.store Fixture.x0
        as_logits false = OK z /\
      shape z = [1; 2] /\ well_formed z) /\
  (exists a,
      predict (Fixture.uniform_pair None) Fixture.store Fixture.x0
        false true = OK a /\
      shape a = [2; 1; 2] /\ well_formed a).
Proof.
  destruct (results_well_formed Fixture.store None (0, 1)%R
              Fixture.pair_of_members None (Fixture.uniform_pair None)
              Fixture.x0 Fixture.y0 None false [1; 2] [1; 2] [1; 2]
              (init_uniform_pair None))
    as (Hz & Ha & _).
  - simpl; lia.
  - apply stubs_predict.
  - apply stubs_class_gradient.
  - apply stubs_loss_gradient.
  - split; [exact Hz | exact Ha].
Defined.

End ShapesRuns.

(** ** A single member *)

Section SingleMember.

Import EnsembleClassifier.

Context {C : Type} `{Classifier.Interface R C}.

Implicit Types (self : object R) (h : Heap C) (x y : ndarray R)
  (q : C -> result (ndarray R)).

(** The stack of an ensemble with one member and the default weight sums
    to that member's answer. *)
Lemma solo_stack h learning cv r self q p :
  __init__ h learning cv (Some [Inst r]) None = OK self ->
  q (h r) = OK p -> well_formed p ->
  (a <- weighted_stack self h q ;; np_sum0 a) = OK p.
Proof.
  intros Hi Hq Hwf.
  destruct (init_members _ _ _ _ _ _ Hi) as (Hcs & Hne & Hn & _).
  inversion Hcs as [Hcs'].
  assert (Hws : _classifier_weights self = [1%R]).
  { destruct (init_OK_inv _ _ _ _ _ _ Hi)
      as (first & rest & ishape & ncls & E & _ & _ & _ & ->).
    inversion E; subst. simpl. f_equal. lra. }
  assert (Hout : member_outputs q h (_classifiers self) [p]).
  { rewrite <- Hcs'. repeat constructor. eauto. }
  assert (Hsh : Forall (fun p' => shape p' = shape p /\ well_formed p') [p])
    by (repeat constructor; assumption).
  assert (Hw : _nb_classifiers self <= length (_classifier_weights self)).
  { rewrite Hn, <- Hcs', Hws. simpl. lia. }
  destruct (weighted_stack_returns self h q [p] (shape p) Hne Hn Hw Hout Hsh)
    as [_ Hsum].
  rewrite Hsum. rewrite Hn, <- Hcs', Hws. simpl.
  destruct p as [s d]. simpl. do 2 f_equal.
  rewrite <- (map_id d) at 2. apply map_ext. intros v. lra.
Qed.

(** An ensemble of one member with the default weight is transparent:
    its aggregated prediction, class gradient and loss gradient are the
    member's own. *)
Theorem single_member_transparent h learning cv r self x y label logits
  p g g' :
  __init__ h learning cv (Some [Inst r]) None = OK self ->
  Classifier.predict (h r) x false = OK p -> well_formed p ->
  Classifier.class_gradient (h r) x label logits = OK g -> well_formed g ->
  Classifier.loss_gradient (h r) x y = OK g' -> well_formed g' ->
  predict self h x false false = OK p /\
  class_gradient self h x label logits false = OK g /\
  loss_gradient self h x y false = OK g'.
Proof.
  intros Hi Hp Hwp Hg Hwg Hg' Hwg'.
  pose proof (solo_stack _ _ _ _ _
                (fun m => Classifier.predict m x false) _ Hi Hp Hwp) as S1.
  pose proof (solo_stack _ _ _ _ _
                (fun m => Classifier.class_gradient m x label logits) _
                Hi Hg Hwg) as S2.
  pose proof (solo_stack _ _ _ _ _
                (fun m => Classifier.loss_gradient m x y) _
                Hi Hg' Hwg') as S3.
  rewrite predict_unfold, class_gradient_unfold, loss_gradient_unfold.
  unfold andb. repeat split.
  - destruct (weighted_stack self h
                (fun m => Classifier.predict m x false)) as [a|];
      unfold bind in *; [|discriminate]. now rewrite S1.
  - destruct (weighted_stack self h
                (fun m => Classifier.class_gradient m x label logits))
      as [a|]; unfold bind in *; [assumption | discriminate].
  - destruct (weighted_stack self h
                (fun m => Classifier.loss_gradient m x y)) as [a|];
      unfold bind in *; [assumption | discriminate].
Qed.

End SingleMember.

Section SingleMemberRuns.

Import EnsembleClassifier.

Lemma single_member_transparent_witness :
  predict Cases.solo Fixture.store Fixture.x0 false false
    = OK (stub_probabilities Fixture.confident) /\
  class_gradient Cases.solo Fixture.store Fixture.x0 None false false
    = OK (stub_gradient Fixture.confident) /\
  loss_gradient Cases.solo Fixture.store Fixture.x0 Fixture.y0 false
    = OK (stub_gradient Fixture.confident).
Proof.
  apply (single_member_transparent Fixture.store None (0, 1)%R 1
           Cases.solo Fixture.x0 Fixture.y0 None false
           (stub_probabilities Fixture.confident)
           (stub_gradient Fixture.confident)
           (stub_gradient Fixture.confident) init_solo);
    reflexivity.
Defined.

End SingleMemberRuns.

(** ** Default weights and gradients *)

Section DefaultGradients.

Import EnsembleClassifier.

Context {F : Type} `{Numeric F} {C : Type} `{Classifier.Interface F C}.

Implicit Types (self : object F) (h : Heap C) (x y : ndarray F).


End DefaultGradients.

Section DefaultGradientsRuns.

Import EnsembleClassifier.


End DefaultGradientsRuns.
